(** * SnowboyWakeWordDetector: a model of the detection lifecycle controller

    Source: [src/audio_processing/snowboy_wake_word_detector.py].

    The class is embedded by explicit state passing.  The mutable object
    [self] is the record [Detector]; the threads spawned by [start], and the
    calls made on the external collaborators (PyAudio, snowboydecoder, the
    logger, the subscriber callbacks) are kept next to it in [World].  Every
    method is a computation in a small state-and-exception monad [M]: a
    Python exception leaves the mutations made so far in place and is
    propagated until a [try ... except Exception] catches it.

    Threads.  A method of the interface runs as one step.  A worker thread
    runs [_detection_loop] in moves: the acquisitions of lines 106-115 are
    one move, every round of the [while] (its test and its body) is one
    move, and the [except] and [finally] clauses belong to the move that
    reaches them.  No other thread runs inside a step or a move; the flags
    [running] and [paused] are read at the tests of a round only, and the
    round that is past its tests when a call of another thread lands is
    [round_in_flight].  [Thread.join(timeout=1.0)] lets the joined worker
    move until it is dead or the timeout has elapsed, and raises when a
    thread joins itself.

    Collaborators.  What PyAudio, snowboydecoder and the callbacks answer is
    given by an environment [Env]; the properties hold for every
    environment.  Callbacks do not call back into the controller. *)

From Stdlib Require Import String ZArith List Bool Arith Lia DecimalString.
From Stdlib.Strings Require Import Byte.
Import ListNotations.
Open Scope string_scope.

(** ** Python values *)

(** Exceptions.  Every constructor stands for a subclass of Python's
    [Exception], which is what the handlers of the source catch. *)
Inductive exn : Type :=
| RuntimeError (msg : string)
| IndexError (msg : string)
| TypeError (msg : string)
| AttributeError (msg : string)
| OSError (msg : string)
| ValueError (msg : string).

(** [str(e)] *)
Definition exn_str (e : exn) : string :=
  match e with
  | RuntimeError m | IndexError m | TypeError m | AttributeError m | OSError m
  | ValueError m => m
  end.

Inductive result (A : Type) : Type :=
| Ok (a : A)
| Raise (e : exn).
Arguments Ok {A} a.
Arguments Raise {A} e.

(** The decimal text of an [int]: what [str(i)] and an f-string print for
    it when they print it.  [str] refuses an [int] of more than
    [int_max_str_digits] digits: the constructor, which is given ints of any
    size, prints them through [py_str] below.  The other ints printed are
    indices that are in the range of a list and answers of the engine, which
    are C ints: all of them far below the limit. *)
Definition py_str_int (i : Z) : string := NilZero.string_of_int (Z.to_int i).

(** CPython's default limit on the digits of an [int] that [str] prints
    ([sys.int_max_str_digits]). *)
Definition int_max_str_digits : nat := 4300.

(** The number of decimal digits of an [int]. *)
Definition digits (i : Z) : nat := String.length (py_str_int (Z.abs i)).

(** A number given as a sensitivity: an [int], or a [float] which is kept as
    the text that [str] prints for it. *)
Inductive PyNum : Type :=
| PyInt (z : Z)
| PyFloat (repr : string).

(** The text of a number. *)
Definition py_text (x : PyNum) : string :=
  match x with
  | PyInt z => py_str_int z
  | PyFloat r => r
  end.

(** [str] prints every [float], and an [int] of at most
    [int_max_str_digits] digits. *)
Definition printable (x : PyNum) : bool :=
  match x with
  | PyInt z => Nat.leb (digits z) int_max_str_digits
  | PyFloat _ => true
  end.

(** [str(x)]: it raises [ValueError] for an [int] of too many digits. *)
Definition py_str (x : PyNum) : result string :=
  if printable x
  then Ok (py_text x)
  else Raise (ValueError
         ("Exceeds the limit (4300 digits) for integer string conversion; " ++
          "use sys.set_int_max_str_digits() to increase the limit")).

(** [[str(s) for s in l]]: the elements are printed from left to right and
    the first that raises ends the comprehension. *)
Fixpoint py_str_all (l : list PyNum) : result (list string) :=
  match l with
  | [] => Ok []
  | x :: rest =>
      match py_str x with
      | Raise e => Raise e
      | Ok s =>
          match py_str_all rest with
          | Raise e => Raise e
          | Ok strs => Ok (s :: strs)
          end
      end
  end.

(** The [sensitivity] argument of the constructor: a single number, a
    sequence of numbers, or [None] (which is neither a number nor iterable). *)
Inductive SensArg : Type :=
| Scalar (x : PyNum)
| Seq (l : list PyNum)
| PyNone.

(** [sys.maxsize], the largest [Py_ssize_t], of a 64-bit CPython. *)
Definition PY_SSIZE_T_MAX : Z := 2 ^ 63 - 1.

(** The index converts to a [Py_ssize_t]. *)
Definition fits_index (i : Z) : bool :=
  ((- PY_SSIZE_T_MAX - 1 <=? i) && (i <=? PY_SSIZE_T_MAX))%Z.

(** The text of the [IndexError] of [l[i]]: CPython first converts the index
    to a [Py_ssize_t], and only an index that converts is compared with the
    length. *)
Definition index_error_text (i : Z) : string :=
  if fits_index i then "list index out of range"
  else "cannot fit 'int' into an index-sized integer".

(** [l[i]] on a list, with Python's negative indices.  A list of CPython has
    at most [PY_SSIZE_T_MAX] elements, so an index that does not convert is
    out of range: the test of the range comes first here, and the conversion
    only chooses the text of the error. *)
Definition py_index {A : Type} (l : list A) (i : Z) : result A :=
  let n := Z.of_nat (length l) in
  let j := if (i <? 0)%Z then (n + i)%Z else i in
  if ((0 <=? j) && (j <? n))%Z
  then match nth_error l (Z.to_nat j) with
       | Some a => Ok a
       | None => Raise (IndexError (index_error_text i))
       end
  else Raise (IndexError (index_error_text i)).

(** [[x] * n] *)
Definition py_repeat {A : Type} (x : A) (n : nat) : list A := repeat x n.

(** ** The object and its surroundings *)

Definition tid := nat.        (* a [threading.Thread] created by [start] *)
Definition Callback := nat.   (* a subscriber function *)
Definition Engine := nat.     (* a [snowboydecoder.HotwordDetector] *)
Definition AudioDev := nat.   (* a [pyaudio.PyAudio] *)
Definition Stream := nat.     (* a [pyaudio.Stream] *)
Definition frame := list byte.

(** The attributes set by [__init__]. *)
Record Detector : Type := mkDetector {
  model_paths : list string;
  sensitivity : list string;
  sample_rate : Z;
  buffer_size : Z;
  on_detected_callbacks : list Callback;
  running : bool;
  paused : bool;
  detection_thread : option tid;
  audio : option AudioDev;
  stream : option Stream;
  detector : option Engine;
  enabled : bool
}.

Definition set_on_detected_callbacks (v : list Callback) (d : Detector) : Detector :=
  mkDetector (model_paths d) (sensitivity d) (sample_rate d) (buffer_size d)
    v (running d) (paused d) (detection_thread d) (audio d) (stream d)
    (detector d) (enabled d).

Definition set_running (v : bool) (d : Detector) : Detector :=
  mkDetector (model_paths d) (sensitivity d) (sample_rate d) (buffer_size d)
    (on_detected_callbacks d) v (paused d) (detection_thread d) (audio d)
    (stream d) (detector d) (enabled d).

Definition set_paused (v : bool) (d : Detector) : Detector :=
  mkDetector (model_paths d) (sensitivity d) (sample_rate d) (buffer_size d)
    (on_detected_callbacks d) (running d) v (detection_thread d) (audio d)
    (stream d) (detector d) (enabled d).

Definition set_detection_thread (v : option tid) (d : Detector) : Detector :=
  mkDetector (model_paths d) (sensitivity d) (sample_rate d) (buffer_size d)
    (on_detected_callbacks d) (running d) (paused d) v (audio d) (stream d)
    (detector d) (enabled d).

Definition set_audio (v : option AudioDev) (d : Detector) : Detector :=
  mkDetector (model_paths d) (sensitivity d) (sample_rate d) (buffer_size d)
    (on_detected_callbacks d) (running d) (paused d) (detection_thread d) v
    (stream d) (detector d) (enabled d).

Definition set_stream (v : option Stream) (d : Detector) : Detector :=
  mkDetector (model_paths d) (sensitivity d) (sample_rate d) (buffer_size d)
    (on_detected_callbacks d) (running d) (paused d) (detection_thread d)
    (audio d) v (detector d) (enabled d).

Definition set_detector (v : option Engine) (d : Detector) : Detector :=
  mkDetector (model_paths d) (sensitivity d) (sample_rate d) (buffer_size d)
    (on_detected_callbacks d) (running d) (paused d) (detection_thread d)
    (audio d) (stream d) v (enabled d).

(** Where a worker thread stands in [_detection_loop]. *)
Inductive wpc : Type :=
| PcEntry   (* started, before line 102 *)
| PcLoop    (* resources acquired, at the test of [while self.running] *)
| PcDone.   (* [_detection_loop] has returned or raised: the thread is dead *)

Inductive level : Type := INFO | WARNING | ERROR.

(** What the controller does to the outside, in the order it does it. *)
Inductive event : Type :=
| EvLog (lvl : level) (msg : string)
| EvHotwordDetector (paths : list string) (sens : string)
| EvPyAudio
| EvOpen (a : AudioDev) (channels rate frames_per_buffer : Z)
| EvRead (s : Stream) (n : Z)
| EvRunDetection (d : Engine) (data : frame)
| EvReset (d : Engine)
| EvIsActive (s : Stream)
| EvStopStream (s : Stream)
| EvClose (s : Stream)
| EvTerminate (a : AudioDev)
| EvCallback (cb : Callback) (path label : string)
| EvSleep (milliseconds : Z)
| EvUncaught (t : tid) (e : exn).

Record World : Type := mkWorld {
  self : Detector;
  threads : list wpc;      (* the thread created by the k-th spawn is thread k *)
  trace : list event
}.

(** The collaborators.  Each call is answered from the number of events that
    came before it, so that a collaborator may answer the same call
    differently as time goes by; [Raise] is the call raising. *)
Record Env : Type := mkEnv {
  snowboydecoder : bool;   (* [import snowboydecoder] succeeded *)
  CHANNELS : Z;            (* [AudioConfig.CHANNELS] *)
  HotwordDetector : list string -> string -> nat -> result Engine;
  PyAudio : nat -> result AudioDev;
  audio_open : AudioDev -> Z -> Z -> Z -> nat -> result Stream;
  stream_read : Stream -> Z -> nat -> result frame;
  RunDetection : Engine -> frame -> nat -> result Z;   (* the answer is a C int *)
  Reset : Engine -> nat -> result unit;
  is_active : Stream -> nat -> result bool;
  stop_stream : Stream -> nat -> result unit;
  close : Stream -> nat -> result unit;
  terminate : AudioDev -> nat -> result unit;
  callback_run : Callback -> string -> string -> nat -> result unit
}.

(** ** The monad of method bodies *)

Definition M (A : Type) : Type := World -> World * result A.

Definition ret {A : Type} (a : A) : M A := fun w => (w, Ok a).

Definition bind {A B : Type} (m : M A) (k : A -> M B) : M B :=
  fun w => match m w with
           | (w', Ok a) => k a w'
           | (w', Raise e) => (w', Raise e)
           end.

Definition raise {A : Type} (e : exn) : M A := fun w => (w, Raise e).

Declare Scope py_scope.
Delimit Scope py_scope with py.
Notation "x <- m ;; k" := (bind m (fun x => k))
  (at level 100, m at next level, right associativity) : py_scope.
Notation "m ;; k" := (bind m (fun _ => k))
  (at level 100, right associativity) : py_scope.
Open Scope py_scope.

(** [try: body  except Exception as e: handler e] *)
Definition try_except {A : Type} (body : M A) (handler : exn -> M A) : M A :=
  fun w => match body w with
           | (w', Ok a) => (w', Ok a)
           | (w', Raise e) => handler e w'
           end.

Definition get {A : Type} (f : Detector -> A) : M A :=
  fun w => (w, Ok (f (self w))).

Definition update (f : Detector -> Detector) : M unit :=
  fun w => (mkWorld (f (self w)) (threads w) (trace w), Ok tt).

Definition emit (ev : event) (w : World) : World :=
  mkWorld (self w) (threads w) (trace w ++ [ev]).

(** A call on a collaborator: it is recorded, then answered. *)
Definition call {A : Type} (ev : event) (answer : nat -> result A) : M A :=
  fun w => (emit ev w, answer (length (trace w))).

Definition log (lvl : level) (msg : string) : M unit :=
  fun w => (emit (EvLog lvl msg) w, Ok tt).

Definition lift {A : Type} (r : result A) : M A := fun w => (w, r).

(** [Thread.is_alive()] *)
Definition is_alive (t : tid) (w : World) : bool :=
  match nth_error (threads w) t with
  | Some PcEntry | Some PcLoop => true
  | Some PcDone | None => false
  end.

Fixpoint set_nth {A : Type} (n : nat) (x : A) (l : list A) : list A :=
  match l, n with
  | [], _ => []
  | _ :: l', O => x :: l'
  | y :: l', S n' => y :: set_nth n' x l'
  end.

Definition set_pc (t : tid) (pc : wpc) (w : World) : World :=
  mkWorld (self w) (set_nth t pc (threads w)) (trace w).

(** [threading.Thread(target=self._detection_loop, daemon=True)] followed by
    [.start()]: a new thread at the entry of [_detection_loop]. *)
Definition spawn : M tid :=
  fun w => (mkWorld (self w) (threads w ++ [PcEntry]) (trace w),
            Ok (length (threads w))).

(** [','.join(l)] *)
Definition py_join (sep : string) (l : list string) : string := String.concat sep l.

(** The state of the specification, read off the two flags of the source.
    The source does not tell a controller that was never started from one
    that was stopped: both have [running = False], and both are [Stopped]
    here. *)
Inductive state : Type := Running | Paused | Stopped.

Definition state_of (d : Detector) : state :=
  if running d then (if paused d then Paused else Running) else Stopped.

Section Controller.

Variable E : Env.

(** [__init__], lines 18-42.  [model_paths or []] turns [None] into the empty
    list; a number is printed once and repeated once per model path,
    anything else is iterated, which [None] does not support. *)
Definition __init__ (paths : option (list string)) (sens : SensArg)
    (rate frames : Z) : result Detector :=
  let paths' := match paths with Some l => l | None => [] end in
  let sens' :=
    match sens with
    | Scalar x =>
        match py_str x with
        | Ok s => Ok (py_repeat s (length paths'))
        | Raise e => Raise e
        end
    | Seq l => py_str_all l
    | PyNone => Raise (TypeError "'NoneType' object is not iterable")
    end in
  match sens' with
  | Raise e => Raise e
  | Ok s =>
      Ok (mkDetector paths' s rate frames [] false false None None None None
            (snowboydecoder E && negb (Nat.eqb (length paths') 0)))
  end.

(** [is_running], lines 88-89 *)
Definition is_running (d : Detector) : bool := running d && negb (paused d).

(** [on_detected], lines 91-92 *)
Definition on_detected (cb : Callback) : M unit :=
  update (fun d => set_on_detected_callbacks (on_detected_callbacks d ++ [cb]) d).

(** [pause], lines 78-81 *)
Definition pause : M unit :=
  r <- get running ;;
  p <- get paused ;;
  if r && negb p
  then update (set_paused true) ;; log INFO "Snowboy 检测已暂停"
  else ret tt.

(** [resume], lines 83-86 *)
Definition resume : M unit :=
  r <- get running ;;
  p <- get paused ;;
  if r && p
  then update (set_paused false) ;; log INFO "Snowboy 检测已恢复"
  else ret tt.

(** [start], lines 44-56.  The argument [audio_codec_or_stream] is not used
    by the source. *)
Definition start : M bool :=
  en <- get enabled ;;
  if negb en
  then log WARNING "Snowboy 唤醒词检测未启用或未配置模型" ;; ret false
  else
    r <- get running ;;
    if r
    then log INFO "Snowboy 唤醒词检测已在运行" ;; ret true
    else
      update (set_running true) ;;
      update (set_paused false) ;;
      t <- spawn ;;
      update (set_detection_thread (Some t)) ;;
      log INFO "Snowboy 唤醒词检测已启动" ;;
      ret true.

(** The label of line 97, an f-string ending in the index.  It is built
    after the lookup of line 97 has succeeded, so for an index in range. *)
Definition label (index : Z) : string := "唤醒词索引: " ++ py_str_int index.

(** One round of the [for] of [_trigger_callbacks], lines 96-99: the lookup
    [self.model_paths[index]] and the call are both inside the [try]. *)
Definition trigger_one (index : Z) (cb : Callback) : M unit :=
  try_except
    (paths <- get model_paths ;;
     path <- lift (py_index paths index) ;;
     call (EvCallback cb path (label index))
          (callback_run E cb path (label index)))
    (fun e => log ERROR ("回调执行失败: " ++ exn_str e)).

Fixpoint for_callbacks (index : Z) (cbs : list Callback) : M unit :=
  match cbs with
  | [] => ret tt
  | cb :: rest => trigger_one index cb ;; for_callbacks index rest
  end.

(** [_trigger_callbacks], lines 94-99 *)
Definition _trigger_callbacks (index : Z) : M unit :=
  cbs <- get on_detected_callbacks ;;
  for_callbacks index cbs.

Section Methods.

(** [join t w] is what the world has become when [Thread.join(timeout=1.0)]
    on thread [t] returns to a thread other than [t]; it is defined below,
    once the worker is, as the worker running until it is dead or the
    timeout has elapsed. *)
Variable join : tid -> World -> World.

(** [self.detection_thread.join(timeout=1.0)], line 61.  CPython's
    [Thread.join] raises [RuntimeError] when the thread to join is the
    calling one. *)
Definition thread_join (caller : option tid) (t : tid) : M unit :=
  match caller with
  | Some c =>
      if Nat.eqb c t
      then raise (RuntimeError "cannot join current thread")
      else fun w => (join t w, Ok tt)
  | None => fun w => (join t w, Ok tt)
  end.

(** Lines 60-61 of [stop]: wait for the worker if there is one and it is
    alive. *)
Definition wait_for_worker (caller : option tid) : M unit :=
  th <- get detection_thread ;;
  match th with
  | Some t => fun w => if is_alive t w then thread_join caller t w else (w, Ok tt)
  | None => ret tt
  end.

(** Lines 62-68 of [stop] *)
Definition release_stream : M unit :=
  st <- get stream ;;
  match st with
  | Some s =>
      try_except
        (active <- call (EvIsActive s) (is_active E s) ;;
         (if active then call (EvStopStream s) (stop_stream E s) else ret tt) ;;
         call (EvClose s) (close E s))
        (fun e => log ERROR ("关闭音频流失败: " ++ exn_str e))
  | None => ret tt
  end.

(** Lines 69-73 of [stop] *)
Definition release_audio : M unit :=
  au <- get audio ;;
  match au with
  | Some a =>
      try_except
        (call (EvTerminate a) (terminate E a))
        (fun e => log ERROR ("终止音频设备失败: " ++ exn_str e))
  | None => ret tt
  end.

(** [stop], lines 58-76.  [caller] is the worker thread that calls it, or
    [None] for a thread that is not one of the controller's workers. *)
Definition stop (caller : option tid) : M unit :=
  update (set_running false) ;;
  wait_for_worker caller ;;
  release_stream ;;
  release_audio ;;
  update (set_stream None) ;;
  update (set_audio None) ;;
  log INFO "Snowboy 唤醒词检测已停止".

(** Lines 106-115: the three acquisitions at the head of the [try]. *)
Definition setup : M unit :=
  paths <- get model_paths ;;
  sens <- get sensitivity ;;
  d <- call (EvHotwordDetector paths (py_join "," sens))
            (HotwordDetector E paths (py_join "," sens)) ;;
  update (set_detector (Some d)) ;;
  a <- call EvPyAudio (PyAudio E) ;;
  update (set_audio (Some a)) ;;
  rate <- get sample_rate ;;
  frames <- get buffer_size ;;
  s <- call (EvOpen a (CHANNELS E) rate frames)
            (audio_open E a (CHANNELS E) rate frames) ;;
  update (set_stream (Some s)).

(** Lines 117-125: the body of the [while].  An attribute that is [None]
    when a method is called on it raises [AttributeError]. *)
Definition loop_body : M unit :=
  p <- get paused ;;
  if p
  then call (EvSleep 100) (fun _ => Ok tt)
  else
    st <- get stream ;;
    frames <- get buffer_size ;;
    data <- (match st with
             | Some s => call (EvRead s frames) (stream_read E s frames)
             | None => raise (AttributeError "'NoneType' object has no attribute 'read'")
             end) ;;
    dt <- get detector ;;
    ans <- (match dt with
            | Some d => call (EvRunDetection d data) (RunDetection E d data)
            | None => raise (AttributeError "'NoneType' object has no attribute 'detector'")
            end) ;;
    if (ans >? 0)%Z
    then
      log INFO ("检测到唤醒词，索引: " ++ py_str_int (ans - 1)) ;;
      _trigger_callbacks (ans - 1) ;;
      dt' <- get detector ;;
      match dt' with
      | Some d => call (EvReset d) (Reset E d)
      | None => raise (AttributeError "'NoneType' object has no attribute 'detector'")
      end
    else ret tt.

(** Lines 126-129, and the end of the thread: the [except] clause logs the
    exception if there is one, the [finally] clause calls [self.stop()] on
    the worker thread itself, and an exception that leaves [stop] leaves
    [_detection_loop] and ends the thread uncaught. *)
Definition leave (t : tid) (raised : option exn) (w : World) : World :=
  let w1 := match raised with
            | Some e => emit (EvLog ERROR ("Snowboy 检测循环异常: " ++ exn_str e)) w
            | None => w
            end in
  match stop (Some t) w1 with
  | (w2, Ok _) => set_pc t PcDone w2
  | (w2, Raise e') => set_pc t PcDone (emit (EvUncaught t e') w2)
  end.

(** One move of worker thread [t] through [_detection_loop], lines 101-129:
    from the entry, the check of line 102 and the acquisitions; at the loop,
    the test of [while self.running] and one round of the body.  A move is
    run in one piece: no call made on another thread lands inside it.  The
    round inside which one lands is [round_in_flight] below. *)
Definition worker_step (t : tid) (w : World) : World :=
  match nth_error (threads w) t with
  | Some PcEntry =>
      if negb (snowboydecoder E)
      then set_pc t PcDone
             (emit (EvLog ERROR "未安装 snowboydecoder，无法检测唤醒词") w)
      else match setup w with
           | (w', Ok _) => set_pc t PcLoop w'
           | (w', Raise e) => leave t (Some e) w'
           end
  | Some PcLoop =>
      if running (self w)
      then match loop_body w with
           | (w', Ok _) => w'
           | (w', Raise e) => leave t (Some e) w'
           end
      else leave t None w
  | Some PcDone | None => w
  end.

(** Lines 120-125: what is left of a round once the tests of lines 116 and
    117 have let it through. *)
Definition hear : M unit :=
  st <- get stream ;;
  frames <- get buffer_size ;;
  data <- (match st with
           | Some s => call (EvRead s frames) (stream_read E s frames)
           | None => raise (AttributeError "'NoneType' object has no attribute 'read'")
           end) ;;
  dt <- get detector ;;
  ans <- (match dt with
          | Some d => call (EvRunDetection d data) (RunDetection E d data)
          | None => raise (AttributeError "'NoneType' object has no attribute 'detector'")
          end) ;;
  if (ans >? 0)%Z
  then
    log INFO ("检测到唤醒词，索引: " ++ py_str_int (ans - 1)) ;;
    _trigger_callbacks (ans - 1) ;;
    dt' <- get detector ;;
    match dt' with
    | Some d => call (EvReset d) (Reset E d)
    | None => raise (AttributeError "'NoneType' object has no attribute 'detector'")
    end
  else ret tt.

(** Lines 120-129 for a round that is past its tests: the rest of the body,
    and the [except] and [finally] clauses when it raises. *)
Definition finish_round (t : tid) (w : World) : World :=
  match hear w with
  | (w', Ok _) => w'
  | (w', Raise e) => leave t (Some e) w'
  end.

(** [running] and [paused] are read at lines 116 and 117 only.  A round of
    worker [t] that both tests let through, and inside which a call made on
    another thread lands after the tests and before the read of line 120:
    [landing] is what that call does.  [None] when worker [t] is not at the
    loop or the tests do not let the round through. *)
Definition round_in_flight (t : tid) (landing : World -> World) (w : World)
    : option World :=
  match nth_error (threads w) t with
  | Some PcLoop =>
      if running (self w) && negb (paused (self w))
      then Some (finish_round t (landing w))
      else None
  | _ => None
  end.

End Methods.

(** [Thread.join(timeout=1.0)] seen from another thread: the joined thread
    runs until it is dead; [n] bounds what it gets done before the timeout,
    and the joins it makes itself are bounded likewise. *)
Fixpoint join (n : nat) (t : tid) (w : World) : World :=
  match n with
  | O => w
  | S k => if is_alive t w then join k t (worker_step (join k) t w) else w
  end.

End Controller.

(** ** Executions *)

(** What may happen to a controller: a call of its interface from a thread of
    the application, or a move of one of its workers.  [n] bounds the joins
    made on the way. *)
Inductive action : Type :=
| CallStart
| CallStop (n : nat)
| CallPause
| CallResume
| CallOnDetected (cb : Callback)
| Work (t : tid) (n : nat).

Definition exec (E : Env) (a : action) (w : World) : World :=
  match a with
  | CallStart => fst (start w)
  | CallStop n => fst (stop E (join E n) None w)
  | CallPause => fst (pause w)
  | CallResume => fst (resume w)
  | CallOnDetected cb => fst (on_detected cb w)
  | Work t n => worker_step E (join E n) t w
  end.

Definition execs (E : Env) (acts : list action) (w : World) : World :=
  fold_left (fun w a => exec E a w) acts w.

(** A controller fresh from its constructor. *)
Definition new_world (d : Detector) : World := mkWorld d [] [].


Definition live (pc : wpc) : bool :=
  match pc with PcDone => false | _ => true end.

(** The number of workers that are alive. *)
Definition live_workers (w : World) : nat := length (filter live (threads w)).

Definition is_log (ev : event) : bool :=
  match ev with EvLog _ _ => true | _ => false end.

Definition is_read (ev : event) : bool :=
  match ev with EvRead _ _ => true | _ => false end.

Definition is_run_detection (ev : event) : bool :=
  match ev with EvRunDetection _ _ => true | _ => false end.

Definition is_reset (ev : event) : bool :=
  match ev with EvReset _ => true | _ => false end.

Definition is_callback (ev : event) : bool :=
  match ev with EvCallback _ _ _ => true | _ => false end.

Definition is_close (ev : event) : bool :=
  match ev with EvClose _ => true | _ => false end.

Definition is_terminate (ev : event) : bool :=
  match ev with EvTerminate _ => true | _ => false end.

Definition count (p : event -> bool) (l : list event) : nat := length (filter p l).

(** [s] occurs in [t]. *)
Definition contains (s t : string) : Prop := exists a b, t = a ++ s ++ b.

(** [m] keeps the property [P] of the world. *)
Definition keeps (P : World -> Prop) {A : Type} (m : M A) : Prop :=
  forall w, P w -> P (fst (m w)).

(** [stop] called by [caller] is about to join the calling thread: the caller
    is the worker in [detection_thread], and it is alive. *)
Definition joins_itself (caller : option tid) (w : World) : bool :=
  match caller, detection_thread (self w) with
  | Some c, Some t => Nat.eqb c t && is_alive t w
  | _, _ => false
  end.

(** The world after line 59, the first of [stop]. *)
Definition stopping (w : World) : World :=
  mkWorld (set_running false (self w)) (threads w) (trace w).

(** The round of the loop that starts in [w] fails with [e]: the read of the
    stream raises it, or the read succeeds and the inference raises it. *)
Definition fatal_in_loop (E : Env) (w : World) (e : exn) : Prop :=
  exists s, stream (self w) = Some s /\
    (stream_read E s (buffer_size (self w)) (length (trace w)) = Raise e \/
     exists d data,
       detector (self w) = Some d /\
       stream_read E s (buffer_size (self w)) (length (trace w)) = Ok data /\
       RunDetection E d data (S (length (trace w))) = Raise e).

(** What [_trigger_callbacks] adds to the trace when it is called with
    [clock] events behind it: for each callback in turn, the call if the
    lookup of the path succeeds, and the error log if the lookup or the call
    raises. *)
Fixpoint callback_trace (E : Env) (paths : list string) (index : Z)
    (cbs : list Callback) (clock : nat) : list event :=
  match cbs with
  | [] => []
  | cb :: rest =>
      let evs :=
        match py_index paths index with
        | Ok path =>
            EvCallback cb path (label index) ::
            match callback_run E cb path (label index) clock with
            | Ok _ => []
            | Raise e => [EvLog ERROR ("回调执行失败: " ++ exn_str e)]
            end
        | Raise e => [EvLog ERROR ("回调执行失败: " ++ exn_str e)]
        end in
      (evs ++ callback_trace E paths index rest (clock + length evs))%list
  end.

Definition is_error_log (ev : event) : bool :=
  match ev with EvLog ERROR _ => true | _ => false end.




(** A frame is read from the stream or fed to the engine. *)
Definition hears (ev : event) : bool := is_read ev || is_run_detection ev.

(** The callbacks registered by a run of actions, in order. *)
Definition registered (acts : list action) : list Callback :=
  flat_map (fun a => match a with CallOnDetected cb => [cb] | _ => [] end) acts.

(** The configuration fixed by the constructor. *)
Definition config (d : Detector) : list string * list string * Z * Z * bool :=
  (model_paths d, sensitivity d, sample_rate d, buffer_size d, enabled d).

(** A controller on which nothing was ever started. *)
Definition untouched (w : World) : Prop :=
  enabled (self w) = false /\
  running (self w) = false /\
  threads w = [] /\
  audio (self w) = None /\
  stream (self w) = None /\
  detector (self w) = None /\
  forallb is_log (trace w) = true.

(** The stream is closed or the audio device is terminated. *)
Definition releases (ev : event) : bool := is_close ev || is_terminate ev.

(** [c] closes and [x] terminations so far. *)
Definition released_so_far (c x : nat) (w : World) : Prop :=
  count is_close (trace w) = c /\ count is_terminate (trace w) = x.

(** PyAudio is instantiated or a stream is opened. *)
Definition is_audio_acquisition (ev : event) : bool :=
  match ev with EvPyAudio | EvOpen _ _ _ _ => true | _ => false end.

(** No thread was created, or the controller is enabled. *)
Definition started_only_if_enabled (w : World) : Prop :=
  threads w = [] \/ enabled (self w) = true.

(** ** Collaborators and controllers to run the model on *)

(** Every call succeeds; the engine never matches. *)
Definition quiet_env : Env :=
  mkEnv true 1
    (fun _ _ _ => Ok 1%nat) (fun _ => Ok 2%nat) (fun _ _ _ _ _ => Ok 3%nat)
    (fun _ _ _ => Ok []) (fun _ _ _ => Ok 0%Z) (fun _ _ => Ok tt)
    (fun _ _ => Ok true) (fun _ _ => Ok tt) (fun _ _ => Ok tt)
    (fun _ _ => Ok tt) (fun _ _ _ _ => Ok tt).

(** As [quiet_env], but every read of the stream fails. *)
Definition broken_read_env : Env :=
  mkEnv true 1
    (fun _ _ _ => Ok 1%nat) (fun _ => Ok 2%nat) (fun _ _ _ _ _ => Ok 3%nat)
    (fun _ _ _ => Raise (OSError "Stream closed")) (fun _ _ _ => Ok 0%Z)
    (fun _ _ => Ok tt)
    (fun _ _ => Ok true) (fun _ _ => Ok tt) (fun _ _ => Ok tt)
    (fun _ _ => Ok tt) (fun _ _ _ _ => Ok tt).

(** As [quiet_env], without the snowboy library. *)
Definition no_snowboy_env : Env :=
  mkEnv false 1
    (fun _ _ _ => Ok 1%nat) (fun _ => Ok 2%nat) (fun _ _ _ _ _ => Ok 3%nat)
    (fun _ _ _ => Ok []) (fun _ _ _ => Ok 0%Z) (fun _ _ => Ok tt)
    (fun _ _ => Ok true) (fun _ _ => Ok tt) (fun _ _ => Ok tt)
    (fun _ _ => Ok tt) (fun _ _ _ _ => Ok tt).

(** One model, the default sensitivity, 16 kHz and frames of 960 samples. *)
Definition one_model : Detector :=
  mkDetector ["hey.pmdl"] ["0.5"] 16000 960 [] false false None None None None true.

(** [one_model] after [start] and the worker's acquisitions. *)
Definition listening : World :=
  execs quiet_env [CallStart; Work 0 0] (new_world one_model).

(** Two callbacks, the first of which always fails. *)
Definition failing_callback_env : Env :=
  mkEnv true 1
    (fun _ _ _ => Ok 1%nat) (fun _ => Ok 2%nat) (fun _ _ _ _ _ => Ok 3%nat)
    (fun _ _ _ => Ok []) (fun _ _ _ => Ok 1%Z) (fun _ _ => Ok tt)
    (fun _ _ => Ok true) (fun _ _ => Ok tt) (fun _ _ => Ok tt)
    (fun _ _ => Ok tt)
    (fun cb _ _ _ => if Nat.eqb cb 7 then Raise (RuntimeError "boom") else Ok tt).

Definition two_subscribers : World :=
  execs failing_callback_env [CallOnDetected 7; CallOnDetected 8; CallStart; Work 0 0]
    (new_world one_model).

(** [listening] after [pause]. *)
Definition listening_paused : World :=
  execs quiet_env [CallStart; Work 0 0; CallPause] (new_world one_model).

(** A round of the worker of [listening] that is past its tests when [pause]
    lands. *)
Definition paused_in_flight : option World :=
  round_in_flight quiet_env (join quiet_env 1) 0 (fun w => fst (pause w)) listening.


(** As [quiet_env], but the engine cannot be built. *)
Definition no_engine_env : Env :=
  mkEnv true 1
    (fun _ _ _ => Raise (RuntimeError "bad model")) (fun _ => Ok 2%nat)
    (fun _ _ _ _ _ => Ok 3%nat)
    (fun _ _ _ => Ok []) (fun _ _ _ => Ok 0%Z) (fun _ _ => Ok tt)
    (fun _ _ => Ok true) (fun _ _ => Ok tt) (fun _ _ => Ok tt)
    (fun _ _ => Ok tt) (fun _ _ _ _ => Ok tt).

(** As [quiet_env], but the stream cannot tell whether it is active. *)
Definition broken_stream_env : Env :=
  mkEnv true 1
    (fun _ _ _ => Ok 1%nat) (fun _ => Ok 2%nat) (fun _ _ _ _ _ => Ok 3%nat)
    (fun _ _ _ => Ok []) (fun _ _ _ => Ok 0%Z) (fun _ _ => Ok tt)
    (fun _ _ => Raise (OSError "Stream not open")) (fun _ _ => Ok tt)
    (fun _ _ => Ok tt)
    (fun _ _ => Ok tt) (fun _ _ _ _ => Ok tt).

(** [one_model] after [start], the acquisitions and a read that failed: the
    worker is dead and the handles are still in place. *)
Definition crashed : World :=
  execs broken_read_env [CallStart; Work 0 0; Work 0 0] (new_world one_model).

(** * Properties *)

Ltac run :=
  unfold bind, get, update, ret, raise, log, call, lift, try_except, spawn; simpl.

(** ** Construction *)

Lemma init_seq_spec (E : Env) (paths : option (list string)) (l : list PyNum)
    (rate frames : Z) :
  __init__ E paths (Seq l) rate frames =
  match py_str_all l with
  | Ok strs =>
      Ok (mkDetector (match paths with Some p => p | None => [] end) strs
            rate frames [] false false None None None None
            (snowboydecoder E &&
             negb (Nat.eqb (length (match paths with Some p => p | None => [] end)) 0)))
  | Raise e => Raise e
  end.
Proof. unfold __init__. destruct (py_str_all l); reflexivity. Qed.

Lemma py_str_all_printable (l : list PyNum) :
  forallb printable l = true -> py_str_all l = Ok (map py_text l).
Proof.
  induction l as [| x l IH]; intros H; [reflexivity |].
  cbn [forallb] in H. apply andb_true_iff in H. destruct H as [Hx Hl].
  cbn [py_str_all map]. unfold py_str. rewrite Hx, (IH Hl). reflexivity.
Qed.

Lemma py_str_all_unprintable (l : list PyNum) :
  forallb printable l = false -> exists e, py_str_all l = Raise e.
Proof.
  induction l as [| x l IH]; intros H; [discriminate |].
  cbn [forallb] in H. cbn [py_str_all]. unfold py_str.
  destruct (printable x); [| eexists; reflexivity].
  cbn [andb] in H. destruct (IH H) as [e He]. rewrite He. eexists. reflexivity.
Qed.

(** C3, as stated, fails: one model path and two sensitivities are not
    rejected, the constructor returns a controller that keeps both. *)
Lemma init_accepts_length_mismatch :
  length [PyFloat "0.5"; PyFloat "0.4"] <> length ["hey.pmdl"] /\
  __init__ quiet_env (Some ["hey.pmdl"]) (Seq [PyFloat "0.5"; PyFloat "0.4"])
    16000 960 =
  Ok (mkDetector ["hey.pmdl"] ["0.5"; "0.4"] 16000 960 [] false false
        None None None None true).
Proof. split; [discriminate | reflexivity]. Qed.

(** C3, amended: with an explicit sequence of sensitivities, whether the
    construction succeeds does not depend on the length of the sequence: it
    succeeds exactly when [str] prints every element, whatever the model
    paths; the controller then keeps [str] of every element, so as many
    sensitivities as were given, and the model paths as given. *)
Theorem init_explicit_sequence_length_unchecked :
  forall (E : Env) (paths : option (list string)) (l : list PyNum) (rate frames : Z),
    ((exists d, __init__ E paths (Seq l) rate frames = Ok d) <->
     forallb printable l = true) /\
    (forall d,
        __init__ E paths (Seq l) rate frames = Ok d ->
        sensitivity d = map py_text l /\
        length (sensitivity d) = length l /\
        model_paths d = match paths with Some p => p | None => [] end).
Proof.
  intros E paths l rate frames. rewrite init_seq_spec.
  destruct (forallb printable l) eqn:Hl.
  - rewrite (py_str_all_printable l Hl). split.
    + split; [reflexivity | intros _; eexists; reflexivity].
    + intros d Hd. inversion Hd. cbn [sensitivity model_paths].
      repeat split. apply length_map.
  - destruct (py_str_all_unprintable l Hl) as [e He]. rewrite He. split.
    + split; [intros [d Hd]; discriminate | discriminate].
    + intros d Hd. discriminate.
Qed.

Lemma init_explicit_sequence_length_unchecked_witness :
  exists d,
    __init__ quiet_env (Some ["hey.pmdl"]) (Seq [PyFloat "0.5"; PyInt 1]) 16000 960
    = Ok d.
Proof.
  apply (proj2 (proj1 (init_explicit_sequence_length_unchecked quiet_env
                         (Some ["hey.pmdl"]) [PyFloat "0.5"; PyInt 1] 16000 960))).
  reflexivity.
Defined.

(** C4: [enabled] holds exactly when the snowboy library was imported and
    there is a model path; and on a controller that is not enabled [start]
    returns [False], leaves every attribute and the threads as they are, and
    calls nothing but the logger. *)
Theorem enabled_iff_and_disabled_start_is_noop :
  forall (E : Env) (paths : option (list string)) (sens : SensArg)
         (rate frames : Z) (d : Detector) (w : World),
    __init__ E paths sens rate frames = Ok d ->
    enabled (self w) = false ->
    (enabled d = true <-> snowboydecoder E = true /\ model_paths d <> []) /\
    model_paths d = match paths with Some p => p | None => [] end /\
    snd (start w) = Ok false /\
    self (fst (start w)) = self w /\
    threads (fst (start w)) = threads w /\
    trace (fst (start w)) =
      (trace w ++ [EvLog WARNING "Snowboy 唤醒词检测未启用或未配置模型"])%list.
Proof.
  intros E paths sens rate frames d w Hinit Hoff.
  assert (Hd : enabled d = (snowboydecoder E && negb (Nat.eqb (length (model_paths d)) 0))
               /\ model_paths d = match paths with Some p => p | None => [] end).
  { unfold __init__ in Hinit. cbv zeta in Hinit.
    destruct sens as [x | l |];
      repeat match type of Hinit with
             | context [match ?r with Ok _ => _ | Raise _ => _ end] => destruct r
             end;
      inversion Hinit; subst; simpl; auto. }
  destruct Hd as [Hen Hpaths].
  split; [| split; [exact Hpaths |]].
  - rewrite Hen. rewrite andb_true_iff, negb_true_iff, Nat.eqb_neq.
    split; intros [Hs Hl]; split; auto.
    + intros Hnil. rewrite Hnil in Hl. apply Hl. reflexivity.
    + destruct (model_paths d); [congruence | discriminate].
  - unfold start. run. rewrite Hoff. simpl. auto.
Qed.

Lemma enabled_iff_and_disabled_start_is_noop_witness :
  (enabled (mkDetector ["hey.pmdl"] ["0.5"] 16000 960 [] false false
              None None None None false) = true <->
   snowboydecoder no_snowboy_env = true /\
   model_paths (mkDetector ["hey.pmdl"] ["0.5"] 16000 960 [] false false
                  None None None None false) <> []) /\
  snd (start (new_world
         (mkDetector [] [] 16000 960 [] false false None None None None false)))
  = Ok false.
Proof.
  pose proof (enabled_iff_and_disabled_start_is_noop no_snowboy_env
                (Some ["hey.pmdl"]) (Scalar (PyFloat "0.5")) 16000 960
                (mkDetector ["hey.pmdl"] ["0.5"] 16000 960 [] false false
                   None None None None false)
                (new_world
                   (mkDetector [] [] 16000 960 [] false false None None None None false))
                eq_refl eq_refl) as H.
  split; [exact (proj1 H) | exact (proj1 (proj2 (proj2 H)))].
Defined.

(** ** start *)

Lemma start_spec (w : World) :
  start w =
  if negb (enabled (self w))
  then (emit (EvLog WARNING "Snowboy 唤醒词检测未启用或未配置模型") w, Ok false)
  else if running (self w)
  then (emit (EvLog INFO "Snowboy 唤醒词检测已在运行") w, Ok true)
  else (mkWorld
          (set_detection_thread (Some (length (threads w)))
             (set_paused false (set_running true (self w))))
          (threads w ++ [PcEntry])
          (trace w ++ [EvLog INFO "Snowboy 唤醒词检测已启动"]), Ok true).
Proof.
  unfold start. unfold bind, get, log, ret, update, spawn.
  destruct (enabled (self w)); [| reflexivity]. cbn [negb].
  destruct (running (self w)); reflexivity.
Qed.


(** ** Pause and resume *)

Lemma pause_spec (w : World) :
  pause w =
  match state_of (self w) with
  | Running =>
      (mkWorld (set_paused true (self w)) (threads w)
         (trace w ++ [EvLog INFO "Snowboy 检测已暂停"])%list, Ok tt)
  | _ => (w, Ok tt)
  end.
Proof.
  unfold pause, state_of. run.
  destruct (running (self w)), (paused (self w)); reflexivity.
Qed.

Lemma resume_spec (w : World) :
  resume w =
  match state_of (self w) with
  | Paused =>
      (mkWorld (set_paused false (self w)) (threads w)
         (trace w ++ [EvLog INFO "Snowboy 检测已恢复"])%list, Ok tt)
  | _ => (w, Ok tt)
  end.
Proof.
  unfold resume, state_of. run.
  destruct (running (self w)), (paused (self w)); reflexivity.
Qed.

(** C7: [pause] changes nothing unless the state is Running, [resume] changes
    nothing unless the state is Paused, and after [pause] then [resume] the
    two audio handles, the engine handle, the worker thread, its place in
    the loop and the [running] flag are what they were: nothing was released
    or reopened (no call other than to the logger), and neither call raises. *)
Theorem pause_resume_frame :
  forall (w : World),
    (state_of (self w) <> Running -> pause w = (w, Ok tt)) /\
    (state_of (self w) <> Paused -> resume w = (w, Ok tt)) /\
    (let w' := fst (resume (fst (pause w))) in
     snd (pause w) = Ok tt /\
     snd (resume (fst (pause w))) = Ok tt /\
     audio (self w') = audio (self w) /\
     stream (self w') = stream (self w) /\
     detector (self w') = detector (self w) /\
     detection_thread (self w') = detection_thread (self w) /\
     running (self w') = running (self w) /\
     threads w' = threads w /\
     (exists logs, trace w' = (trace w ++ logs)%list /\ forallb is_log logs = true) /\
     (state_of (self w) = Running -> self w' = self w)).
Proof.
  intros w. split; [| split].
  - intros H. rewrite pause_spec. destruct (state_of (self w)); congruence.
  - intros H. rewrite resume_spec. destruct (state_of (self w)); congruence.
  - destruct w as [d th tr]. destruct d as [mp se sr bs cbs r p dt au st de en].
    unfold state_of, pause, resume. run.
    destruct r, p; simpl; repeat split; try congruence;
      solve [ exists []; split; [symmetry; apply app_nil_r | reflexivity]
            | eexists; split; [rewrite <- app_assoc; reflexivity | reflexivity]
            | eexists; split; [reflexivity | reflexivity] ].
Qed.

Lemma pause_resume_frame_witness :
  pause (new_world one_model) = (new_world one_model, Ok tt) /\
  resume listening = (listening, Ok tt).
Proof.
  split.
  - apply (proj1 (pause_resume_frame (new_world one_model))). discriminate.
  - apply (proj1 (proj2 (pause_resume_frame listening))). discriminate.
Defined.

(** ** What no method undoes *)

(** A property [P] of the world that survives the events in [allowed] is
    kept by the parts of a method that assign no attribute and make no other
    call.  If it also survives clearing [running], any assignment to
    [stream] and [audio], the assignment of an engine to [detector] and the
    moves of a thread, it survives every move of a worker and every join. *)
Section Kept.

Variable P : World -> Prop.
Variable allowed : event -> bool.
Hypothesis P_emit : forall ev w, allowed ev = true -> P w -> P (emit ev w).

Lemma keeps_ret {A : Type} (a : A) : keeps P (ret a).
Proof. intros w H. exact H. Qed.

Lemma keeps_raise {A : Type} (e : exn) : keeps P (@raise A e).
Proof. intros w H. exact H. Qed.

Lemma keeps_lift {A : Type} (r : result A) : keeps P (lift r).
Proof. intros w H. exact H. Qed.

Lemma keeps_get {A : Type} (f : Detector -> A) : keeps P (get f).
Proof. intros w H. exact H. Qed.

Lemma keeps_call {A : Type} (ev : event) (answer : nat -> result A) :
  allowed ev = true -> keeps P (call ev answer).
Proof. intros Hev w H. apply P_emit; assumption. Qed.

Lemma keeps_log (lvl : level) (msg : string) :
  allowed (EvLog lvl msg) = true -> keeps P (log lvl msg).
Proof. intros Hev w H. apply P_emit; assumption. Qed.

Lemma keeps_update (f : Detector -> Detector) :
  (forall w, P w -> P (mkWorld (f (self w)) (threads w) (trace w))) ->
  keeps P (update f).
Proof. intros Hf w H. apply Hf, H. Qed.

Lemma keeps_bind {A B : Type} (m : M A) (k : A -> M B) :
  keeps P m -> (forall a, keeps P (k a)) -> keeps P (bind m k).
Proof.
  intros Hm Hk w H. unfold bind.
  specialize (Hm w H). destruct (m w) as [w' [a | e]]; simpl in *.
  - apply Hk, Hm.
  - exact Hm.
Qed.

Lemma keeps_try_except {A : Type} (body : M A) (handler : exn -> M A) :
  keeps P body -> (forall e, keeps P (handler e)) -> keeps P (try_except body handler).
Proof.
  intros Hb Hh w H. unfold try_except.
  specialize (Hb w H). destruct (body w) as [w' [a | e]]; simpl in *.
  - exact Hb.
  - apply Hh, Hb.
Qed.

Lemma keeps_if {A : Type} (b : bool) (m1 m2 : M A) :
  keeps P m1 -> keeps P m2 -> keeps P (if b then m1 else m2).
Proof. destruct b; auto. Qed.

Ltac kept :=
  repeat first
    [ apply keeps_bind; [| intro]
    | apply keeps_try_except; [| intro]
    | apply keeps_if
    | apply keeps_ret | apply keeps_raise | apply keeps_lift | apply keeps_get
    | apply keeps_call; [solve [auto] |..]
    | apply keeps_log; [solve [auto] |..]
    | match goal with |- keeps _ (match ?x with _ => _ end) => destruct x end ].

Variable E : Env.

Hypothesis allowed_log : forall lvl msg, allowed (EvLog lvl msg) = true.

Section KeptCallbacks.

Hypothesis allowed_callback :
  forall cb path lbl, allowed (EvCallback cb path lbl) = true.

Lemma keeps_for_callbacks (index : Z) (cbs : list Callback) :
  keeps P (for_callbacks E index cbs).
Proof.
  induction cbs as [| cb rest IH]; simpl.
  - apply keeps_ret.
  - unfold trigger_one. kept. exact IH.
Qed.

Lemma keeps_trigger_callbacks (index : Z) : keeps P (_trigger_callbacks E index).
Proof. unfold _trigger_callbacks. kept. apply keeps_for_callbacks. Qed.

Hypothesis allowed_sleep : forall ms, allowed (EvSleep ms) = true.
Hypothesis allowed_read : forall s n, allowed (EvRead s n) = true.
Hypothesis allowed_run_detection : forall d data, allowed (EvRunDetection d data) = true.
Hypothesis allowed_reset : forall d, allowed (EvReset d) = true.

Lemma keeps_loop_body : keeps P (loop_body E).
Proof.
  unfold loop_body, _trigger_callbacks. kept. apply keeps_for_callbacks.
Qed.

End KeptCallbacks.

Hypothesis allowed_is_active : forall s, allowed (EvIsActive s) = true.
Hypothesis allowed_stop_stream : forall s, allowed (EvStopStream s) = true.
Hypothesis allowed_close : forall s, allowed (EvClose s) = true.
Hypothesis allowed_terminate : forall a, allowed (EvTerminate a) = true.

Lemma keeps_release_stream : keeps P (release_stream E).
Proof. unfold release_stream. kept. Qed.

Lemma keeps_release_audio : keeps P (release_audio E).
Proof. unfold release_audio. kept. Qed.

Hypothesis allowed_hotword : forall paths sens, allowed (EvHotwordDetector paths sens) = true.
Hypothesis allowed_pyaudio : allowed EvPyAudio = true.
Hypothesis allowed_open : forall a c r f, allowed (EvOpen a c r f) = true.
Hypothesis P_stream :
  forall v w, P w -> P (mkWorld (set_stream v (self w)) (threads w) (trace w)).
Hypothesis P_audio :
  forall v w, P w -> P (mkWorld (set_audio v (self w)) (threads w) (trace w)).
Hypothesis P_detector :
  forall e w, P w -> P (mkWorld (set_detector (Some e) (self w)) (threads w) (trace w)).

Lemma keeps_setup : keeps P (setup E).
Proof.
  unfold setup. kept; apply keeps_update; auto.
Qed.

Hypothesis allowed_uncaught : forall t e, allowed (EvUncaught t e) = true.
Hypothesis P_running :
  forall w, P w -> P (mkWorld (set_running false (self w)) (threads w) (trace w)).
Hypothesis P_set_pc : forall t pc w, P w -> P (set_pc t pc w).

Section KeptJoin.

Variable join' : tid -> World -> World.
Hypothesis keeps_join' : forall t w, P w -> P (join' t w).

Lemma keeps_stop (caller : option tid) : keeps P (stop E join' caller).
Proof.
  unfold stop, wait_for_worker.
  kept; try (apply keeps_update; auto);
    try apply keeps_release_stream; try apply keeps_release_audio.
  intros w H. destruct (is_alive _ w); [| exact H].
  unfold thread_join. destruct caller as [c |]; [destruct (Nat.eqb c _) |];
    simpl; auto.
Qed.

Lemma keeps_leave (t : tid) (raised : option exn) (w : World) :
  P w -> P (leave E join' t raised w).
Proof.
  intros H. unfold leave.
  set (w1 := match raised with Some e => _ | None => w end).
  assert (H1 : P w1) by (subst w1; destruct raised; auto).
  pose proof (keeps_stop (Some t) w1 H1) as H2.
  destruct (stop E join' (Some t) w1) as [w2 [u | e']]; simpl in H2; auto.
Qed.

(** The moves of a worker other than a round of the loop body. *)
Lemma keeps_worker_step_but_body (t : tid) (w : World) :
  P w ->
  (nth_error (threads w) t = Some PcLoop -> running (self w) = true ->
   P (fst (loop_body E w))) ->
  P (worker_step E join' t w).
Proof.
  intros H Hbody. unfold worker_step.
  destruct (nth_error (threads w) t) as [[| |] |]; try exact H.
  - destruct (snowboydecoder E); simpl; [| auto].
    pose proof (keeps_setup w H) as Hs.
    destruct (setup E w) as [w' [u | e]]; simpl in Hs.
    + auto.
    + apply keeps_leave, Hs.
  - destruct (running (self w)).
    + specialize (Hbody eq_refl eq_refl).
      destruct (loop_body E w) as [w' [u | e]]; simpl in Hbody.
      * exact Hbody.
      * apply keeps_leave, Hbody.
    + apply keeps_leave, H.
Qed.

End KeptJoin.

Section KeptWorker.

Hypothesis allowed_callback :
  forall cb path lbl, allowed (EvCallback cb path lbl) = true.
Hypothesis allowed_sleep : forall ms, allowed (EvSleep ms) = true.
Hypothesis allowed_read : forall s n, allowed (EvRead s n) = true.
Hypothesis allowed_run_detection : forall d data, allowed (EvRunDetection d data) = true.
Hypothesis allowed_reset : forall d, allowed (EvReset d) = true.

Lemma keeps_worker_step (join' : tid -> World -> World) (t : tid) (w : World) :
  (forall t w, P w -> P (join' t w)) ->
  P w -> P (worker_step E join' t w).
Proof.
  intros Hj H. apply keeps_worker_step_but_body; [exact Hj | exact H |].
  intros _ _. apply keeps_loop_body; assumption.
Qed.

Lemma keeps_join (n : nat) : forall t w, P w -> P (join E n t w).
Proof.
  induction n as [| k IH]; intros t w H; simpl.
  - exact H.
  - destruct (is_alive t w); [| exact H].
    apply IH. apply keeps_worker_step; [exact IH | exact H].
Qed.

End KeptWorker.

End Kept.

Lemma join_keeps_stopped (E : Env) (n : nat) (t : tid) (w : World) :
  running (self w) = false -> running (self (join E n t w)) = false.
Proof.
  apply (keeps_join (fun w => running (self w) = false) (fun _ => true));
    intros; simpl; auto.
Qed.

Lemma join_keeps_engine (E : Env) (n : nat) (t : tid) (w : World) :
  detector (self w) <> None -> detector (self (join E n t w)) <> None.
Proof.
  apply (keeps_join (fun w => detector (self w) <> None) (fun _ => true));
    intros; simpl; auto; discriminate.
Qed.

(** ** stop *)

Lemma bind_Ok {A B : Type} (m : M A) (k : A -> M B) (w w' : World) (a : A) :
  m w = (w', Ok a) -> bind m k w = k a w'.
Proof. intros H. unfold bind. rewrite H. reflexivity. Qed.

Lemma bind_Raise {A B : Type} (m : M A) (k : A -> M B) (w w' : World) (e : exn) :
  m w = (w', Raise e) -> bind m k w = (w', Raise e).
Proof. intros H. unfold bind. rewrite H. reflexivity. Qed.

Ltac answers :=
  repeat match goal with
         | |- context [match ?x with _ => _ end] =>
             lazymatch type of x with
             | result _ => destruct x as [? | ?]
             | bool => destruct x
             | unit => destruct x
             end; simpl
         end;
  repeat match goal with u : unit |- _ => destruct u end.

(** Lines 62-68 never raise and touch no attribute. *)
Lemma release_stream_spec (E : Env) (w : World) :
  exists tr,
    release_stream E w = (mkWorld (self w) (threads w) (trace w ++ tr), Ok tt) /\
    (stream (self w) = None -> tr = []).
Proof.
  unfold release_stream. unfold bind at 1, get.
  destruct (stream (self w)) as [s |].
  - unfold try_except, bind, call, ret, log, emit. simpl. answers;
      rewrite <- ?app_assoc; eexists; (split; [reflexivity | discriminate]).
  - exists []. unfold ret. rewrite app_nil_r. destruct w; split; reflexivity.
Qed.

(** Lines 69-73 never raise and touch no attribute. *)
Lemma release_audio_spec (E : Env) (w : World) :
  exists tr,
    release_audio E w = (mkWorld (self w) (threads w) (trace w ++ tr), Ok tt) /\
    (audio (self w) = None -> tr = []).
Proof.
  unfold release_audio. unfold bind at 1, get.
  destruct (audio (self w)) as [a |].
  - unfold try_except, bind, call, ret, log, emit. simpl. answers;
      rewrite <- ?app_assoc; eexists; (split; [reflexivity | discriminate]).
  - exists []. unfold ret. rewrite app_nil_r. destruct w; split; reflexivity.
Qed.

Lemma wait_for_worker_spec (j : tid -> World -> World) (caller : option tid)
    (w : World) :
  joins_itself caller w = false ->
  wait_for_worker j caller w =
  (match detection_thread (self w) with
   | Some t => if is_alive t w then j t w else w
   | None => w
   end, Ok tt).
Proof.
  intros Hj. unfold wait_for_worker, joins_itself in *. unfold bind, get, ret.
  destruct (detection_thread (self w)) as [t |]; [| reflexivity].
  destruct (is_alive t w); [| reflexivity].
  unfold thread_join. destruct caller as [c |]; [| reflexivity].
  rewrite andb_true_r in Hj. rewrite Hj. reflexivity.
Qed.

(** Line 61 on the worker's own thread. *)
Lemma wait_for_worker_self (j : tid -> World -> World) (t : tid) (w : World) :
  detection_thread (self w) = Some t -> is_alive t w = true ->
  wait_for_worker j (Some t) w =
  (w, Raise (RuntimeError "cannot join current thread")).
Proof.
  intros Ht Ha. unfold wait_for_worker, bind, get. rewrite Ht, Ha.
  unfold thread_join. rewrite Nat.eqb_refl. reflexivity.
Qed.

Lemma stop_unfold (E : Env) (j : tid -> World -> World) (caller : option tid)
    (w : World) :
  stop E j caller w =
  match wait_for_worker j caller (stopping w) with
  | (w2, Ok _) =>
      let w3 := fst (release_stream E w2) in
      let w4 := fst (release_audio E w3) in
      (mkWorld (set_audio None (set_stream None (self w4))) (threads w4)
         (trace w4 ++ [EvLog INFO "Snowboy 唤醒词检测已停止"]), Ok tt)
  | (w2, Raise e) => (w2, Raise e)
  end.
Proof.
  unfold stop. unfold bind at 1. unfold update at 1. fold (stopping w).
  unfold bind at 1.
  destruct (wait_for_worker j caller (stopping w)) as [w2 [[] | e]]; [| reflexivity].
  destruct (release_stream_spec E w2) as [tr [H _]].
  rewrite (bind_Ok _ _ _ _ _ H). rewrite H. cbn [fst].
  destruct (release_audio_spec E (mkWorld (self w2) (threads w2) (trace w2 ++ tr)))
    as [tr' [H' _]].
  rewrite (bind_Ok _ _ _ _ _ H'). rewrite H'. reflexivity.
Qed.

(** [stop] called by a thread that it does not make join itself. *)
Lemma stop_spec (E : Env) (n : nat) (caller : option tid) (w : World) :
  joins_itself caller w = false ->
  snd (stop E (join E n) caller w) = Ok tt /\
  running (self (fst (stop E (join E n) caller w))) = false /\
  stream (self (fst (stop E (join E n) caller w))) = None /\
  audio (self (fst (stop E (join E n) caller w))) = None /\
  (detector (self w) <> None ->
   detector (self (fst (stop E (join E n) caller w))) <> None).
Proof.
  intros Hj. rewrite stop_unfold.
  rewrite wait_for_worker_spec by exact Hj.
  set (w2 := match detection_thread (self (stopping w)) with
             | Some t => if is_alive t (stopping w) then join E n t (stopping w)
                         else stopping w
             | None => stopping w
             end).
  assert (Hr : running (self w2) = false).
  { subst w2. destruct (detection_thread (self (stopping w))) as [t |];
      [destruct (is_alive t (stopping w)) |]; try reflexivity.
    apply join_keeps_stopped. reflexivity. }
  assert (Hd : detector (self w) <> None -> detector (self w2) <> None).
  { intros H. subst w2. destruct (detection_thread (self (stopping w))) as [t |];
      [destruct (is_alive t (stopping w)) |]; try exact H.
    apply join_keeps_engine. exact H. }
  destruct (release_stream_spec E w2) as [tr [H _]]. rewrite H. cbn [fst].
  destruct (release_audio_spec E (mkWorld (self w2) (threads w2) (trace w2 ++ tr)))
    as [tr' [H' _]].
  rewrite H'. cbn. auto.
Qed.

Lemma one_model_constructed :
  __init__ quiet_env (Some ["hey.pmdl"]) (Scalar (PyFloat "0.5")) 16000 960
  = Ok one_model.
Proof. reflexivity. Qed.

(** C1, as stated, fails: on the controller that was started and whose worker
    has acquired its resources, [stop] returns with the engine handle still
    in place. *)
Lemma stop_leaves_engine_handle :
  snd (stop quiet_env (join quiet_env 2) None listening) = Ok tt /\
  detector (self (fst (stop quiet_env (join quiet_env 2) None listening)))
  = Some 1%nat /\
  ~ (stream (self (fst (stop quiet_env (join quiet_env 2) None listening))) = None /\
     audio (self (fst (stop quiet_env (join quiet_env 2) None listening))) = None /\
     detector (self (fst (stop quiet_env (join quiet_env 2) None listening))) = None).
Proof.
  split; [reflexivity | split; [reflexivity |]].
  intros [_ [_ H]]. vm_compute in H. discriminate.
Qed.

(** C1, amended: in every state of the controller, and whether the join of
    line 61 sees the worker finish or times out, [stop] called from a thread
    of the application does not raise; when it returns [running] is false
    (the state is Stopped) and the stream and the audio device handles are
    [None].  The same holds for a second [stop] right after it, and for a
    [stop] on a controller that was never started.  The engine handle is not
    cleared: where there was one there still is one. *)
Theorem stop_never_raises_and_clears_audio_handles :
  forall (E : Env) (n m : nat) (w : World),
    let w1 := fst (stop E (join E n) None w) in
    let w2 := fst (stop E (join E m) None w1) in
    snd (stop E (join E n) None w) = Ok tt /\
    state_of (self w1) = Stopped /\
    stream (self w1) = None /\
    audio (self w1) = None /\
    (detector (self w) <> None -> detector (self w1) <> None) /\
    snd (stop E (join E m) None w1) = Ok tt /\
    state_of (self w2) = Stopped /\
    stream (self w2) = None /\
    audio (self w2) = None.
Proof.
  intros E n m w w1 w2.
  destruct (stop_spec E n None w eq_refl) as (H1 & H2 & H3 & H4 & H5).
  destruct (stop_spec E m None w1 eq_refl) as (K1 & K2 & K3 & K4 & _).
  unfold state_of. subst w2. rewrite K2. subst w1. rewrite H2.
  repeat split; assumption.
Qed.

(** ** The worker after a fatal error *)

Lemma nth_error_set_nth {A : Type} (l : list A) (n : nat) (x y : A) :
  nth_error l n = Some y -> nth_error (set_nth n x l) n = Some x.
Proof.
  revert n. induction l as [| a l IH]; intros [| n] H; simpl in *; try discriminate; auto.
Qed.

Lemma loop_body_read_fails E w s e :
  paused (self w) = false -> stream (self w) = Some s ->
  stream_read E s (buffer_size (self w)) (length (trace w)) = Raise e ->
  loop_body E w = (emit (EvRead s (buffer_size (self w))) w, Raise e).
Proof.
  intros Hp Hs Hr. unfold loop_body. unfold bind, get, call. rewrite Hp, Hs, Hr. reflexivity.
Qed.

Lemma loop_body_detection_fails E w s d data e :
  paused (self w) = false -> stream (self w) = Some s -> detector (self w) = Some d ->
  stream_read E s (buffer_size (self w)) (length (trace w)) = Ok data ->
  RunDetection E d data (S (length (trace w))) = Raise e ->
  loop_body E w =
  (emit (EvRunDetection d data) (emit (EvRead s (buffer_size (self w))) w), Raise e).
Proof.
  intros Hp Hs Hd Hr Hx. unfold loop_body. unfold bind, get, call. rewrite Hp, Hs, Hr.
  cbn [self emit trace]. rewrite Hd. cbn [self emit trace]. rewrite length_app, Nat.add_1_r. rewrite Hx. reflexivity.
Qed.

Lemma leave_on_own_thread E j t raised w :
  detection_thread (self w) = Some t -> is_alive t w = true ->
  leave E j t raised w =
  set_pc t PcDone
    (emit (EvUncaught t (RuntimeError "cannot join current thread"))
       (stopping (match raised with
                  | Some e => emit (EvLog ERROR ("Snowboy 检测循环异常: " ++ exn_str e)) w
                  | None => w
                  end))).
Proof.
  intros Ht Ha. unfold leave. rewrite stop_unfold.
  rewrite wait_for_worker_self; [reflexivity | |]; destruct raised; assumption.
Qed.

Lemma count_app p l l' : count p (l ++ l') = count p l + count p l'.
Proof. unfold count. rewrite filter_app, length_app. reflexivity. Qed.

Lemma is_alive_set_pc_done t w pc :
  nth_error (threads w) t = Some pc -> is_alive t (set_pc t PcDone w) = false.
Proof.
  intros H. unfold is_alive, set_pc. cbn [threads].
  rewrite (nth_error_set_nth _ _ _ _ H). reflexivity.
Qed.

(** C2 does not hold of the code: when the read or the inference of a round
    raises, the worker logs the exception and calls [stop] from its own
    thread; [stop] clears [running], so [is_running] is false, and then
    raises at the join of line 61, before lines 62-75.  The thread dies with
    that [RuntimeError]; the stream and the audio device are neither closed
    nor terminated, and both handles stay in place. *)
Theorem fatal_error_in_loop_skips_teardown :
  forall (E : Env) (n : nat) (t : tid) (w : World) (e : exn),
    nth_error (threads w) t = Some PcLoop ->
    detection_thread (self w) = Some t ->
    running (self w) = true ->
    paused (self w) = false ->
    fatal_in_loop E w e ->
    let w' := worker_step E (join E n) t w in
    is_running (self w') = false /\
    is_alive t w' = false /\
    stream (self w') = stream (self w) /\
    audio (self w') = audio (self w) /\
    count is_close (trace w') = count is_close (trace w) /\
    count is_terminate (trace w') = count is_terminate (trace w) /\
    In (EvUncaught t (RuntimeError "cannot join current thread")) (trace w').
Proof.
  intros E n t w e Hpc Ht Hr Hp [s [Hs Hfail]] w'.
  assert (Hbody : exists tr,
            loop_body E w = (mkWorld (self w) (threads w) (trace w ++ tr), Raise e) /\
            count is_close tr = 0 /\ count is_terminate tr = 0).
  { destruct Hfail as [Hread | (d & data & Hd & Hread & Hdet)].
    - exists [EvRead s (buffer_size (self w))].
      rewrite (loop_body_read_fails E w s e Hp Hs Hread). auto.
    - exists [EvRead s (buffer_size (self w)); EvRunDetection d data].
      rewrite (loop_body_detection_fails E w s d data e Hp Hs Hd Hread Hdet).
      unfold emit. cbn [self threads trace]. rewrite <- app_assoc. auto. }
  destruct Hbody as (tr & Hbody & Hc & Hx).
  subst w'. unfold worker_step. rewrite Hpc, Hr, Hbody.
  rewrite leave_on_own_thread; [| exact Ht | unfold is_alive; cbn [threads]; rewrite Hpc; reflexivity].
  split; [reflexivity |]. split.
  { apply is_alive_set_pc_done with (pc := PcLoop). exact Hpc. }
  unfold set_pc, emit, stopping. cbn [self threads trace].
  repeat split.
  - rewrite !count_app, Hc. cbn. lia.
  - rewrite !count_app, Hx. cbn. lia.
  - apply in_or_app. right. left. reflexivity.
Qed.

Lemma fatal_error_in_loop_skips_teardown_witness :
  let w' := worker_step broken_read_env (join broken_read_env 1) 0 listening in
    is_running (self w') = false /\
    is_alive 0 w' = false /\
    stream (self w') = Some 3 /\
    audio (self w') = Some 2 /\
    count is_close (trace w') = 0 /\
    count is_terminate (trace w') = 0 /\
    In (EvUncaught 0 (RuntimeError "cannot join current thread")) (trace w').
Proof.
  apply (fatal_error_in_loop_skips_teardown broken_read_env 1 0 listening
           (OSError "Stream closed")); try reflexivity.
  exists 3. split; [reflexivity | left; reflexivity].
Defined.

(** The release left undone is done by the next [stop] from a thread of the
    application: once each. *)
Lemma later_stop_releases_once :
  let w := execs broken_read_env [CallStart; Work 0 0; Work 0 0; CallStop 1]
             (new_world one_model) in
  count is_close (trace w) = 1 /\
  count is_terminate (trace w) = 1 /\
  stream (self w) = None /\
  audio (self w) = None.
Proof. repeat split. Qed.

(** Without an error, [stop] from a thread of the application releases the
    stream and the audio device once each; the worker it has waited for has
    ended on the same [RuntimeError], raised by its own [stop]. *)
Lemma stop_releases_once :
  let w := execs quiet_env [CallStart; Work 0 0; Work 0 0; CallStop 2]
             (new_world one_model) in
  count is_close (trace w) = 1 /\
  count is_terminate (trace w) = 1 /\
  stream (self w) = None /\
  audio (self w) = None /\
  threads w = [PcDone] /\
  In (EvUncaught 0 (RuntimeError "cannot join current thread")) (trace w).
Proof. repeat split. vm_compute. tauto. Qed.

(** ** Callbacks *)

Lemma trigger_one_spec E index cb w :
  trigger_one E index cb w =
  (mkWorld (self w) (threads w)
     (trace w ++ callback_trace E (model_paths (self w)) index [cb] (length (trace w))),
   Ok tt).
Proof.
  unfold trigger_one, try_except, bind, get, lift, call, log, emit. cbn [callback_trace].
  destruct (py_index (model_paths (self w)) index) as [path | e]; cbn [self threads trace].
  - destruct (callback_run E cb path (label index) (length (trace w))) as [[] | e];
      cbn [self threads trace app]; rewrite ?app_nil_r, <- ?app_assoc; reflexivity.
  - rewrite app_nil_r. reflexivity.
Qed.

Lemma for_callbacks_spec E index cbs : forall w,
  for_callbacks E index cbs w =
  (mkWorld (self w) (threads w)
     (trace w ++ callback_trace E (model_paths (self w)) index cbs (length (trace w))),
   Ok tt).
Proof.
  induction cbs as [| cb rest IH]; intros w.
  - simpl. unfold ret. rewrite app_nil_r. destruct w; reflexivity.
  - cbn [for_callbacks]. rewrite (bind_Ok _ _ _ _ _ (trigger_one_spec E index cb w)).
    rewrite IH. cbn [self threads trace callback_trace].
    rewrite !app_nil_r, length_app, <- app_assoc. reflexivity.
Qed.

Lemma trigger_callbacks_spec E index w :
  _trigger_callbacks E index w =
  (mkWorld (self w) (threads w)
     (trace w ++ callback_trace E (model_paths (self w)) index
                   (on_detected_callbacks (self w)) (length (trace w))),
   Ok tt).
Proof. unfold _trigger_callbacks, bind, get. apply for_callbacks_spec. Qed.

Lemma callback_trace_in_range E paths index path cbs : forall clock,
  py_index paths index = Ok path ->
  filter is_callback (callback_trace E paths index cbs clock) =
    map (fun cb => EvCallback cb path (label index)) cbs /\
  forallb (fun ev => is_callback ev || is_error_log ev)
    (callback_trace E paths index cbs clock) = true.
Proof.
  intros clock H. revert clock.
  induction cbs as [| cb rest IH]; intros clock; [split; reflexivity |].
  cbn [callback_trace]. rewrite H.
  destruct (callback_run E cb path (label index) clock) as [[] | e];
    cbn [app filter is_callback forallb is_error_log orb andb map length];
    match goal with
    | |- context [callback_trace E paths index rest ?c] =>
        destruct (IH c) as [IH1 IH2]; rewrite IH1, IH2; split; reflexivity
    end.
Qed.

Lemma callback_trace_out_of_range E paths index e cbs : forall clock,
  py_index paths index = Raise e ->
  callback_trace E paths index cbs clock =
    map (fun _ => EvLog ERROR ("回调执行失败: " ++ exn_str e)) cbs.
Proof.
  intros clock H. revert clock.
  induction cbs as [| cb rest IH]; intros clock; [reflexivity |].
  cbn [callback_trace]. rewrite H. cbn [app map]. rewrite IH. reflexivity.
Qed.

Lemma py_index_in_range {A} (l : list A) (i : Z) (dflt : A) :
  (0 <= i < Z.of_nat (length l))%Z ->
  py_index l i = Ok (nth (Z.to_nat i) l dflt).
Proof.
  intros H. unfold py_index.
  destruct (i <? 0)%Z eqn:Hneg; [apply Z.ltb_lt in Hneg; lia |].
  replace ((0 <=? i)%Z && (i <? Z.of_nat (length l))%Z) with true
    by (symmetry; apply andb_true_iff; split; [apply Z.leb_le | apply Z.ltb_lt]; lia).
  destruct (nth_error l (Z.to_nat i)) as [a |] eqn:Hn.
  - rewrite (nth_error_nth _ _ dflt Hn). reflexivity.
  - apply nth_error_None in Hn. lia.
Qed.

Lemma py_index_out_of_range {A} (l : list A) (i : Z) :
  (i < - Z.of_nat (length l) \/ Z.of_nat (length l) <= i)%Z ->
  py_index l i = Raise (IndexError (index_error_text i)).
Proof.
  intros H. unfold py_index.
  destruct (i <? 0)%Z eqn:Hneg.
  - apply Z.ltb_lt in Hneg.
    replace (0 <=? Z.of_nat (length l) + i)%Z with false
      by (symmetry; apply Z.leb_gt; lia). reflexivity.
  - apply Z.ltb_ge in Hneg.
    replace (i <? Z.of_nat (length l))%Z with false
      by (symmetry; apply Z.ltb_ge; lia).
    rewrite andb_false_r. reflexivity.
Qed.

Lemma append_empty_r (s : string) : s ++ "" = s.
Proof. induction s as [| c s IH]; simpl; [| rewrite IH]; reflexivity. Qed.

Lemma label_contains_index (index : Z) : contains (py_str_int index) (label index).
Proof.
  exists "唤醒词索引: ", "". unfold label. rewrite append_empty_r. reflexivity.
Qed.

Lemma bind_trigger_callbacks {B : Type} (E : Env) (index : Z) (k : unit -> M B)
    (w : World) :
  bind (_trigger_callbacks E index) k w = k tt (fst (_trigger_callbacks E index w)).
Proof.
  rewrite (bind_Ok _ _ _ _ _ (trigger_callbacks_spec E index w)).
  rewrite trigger_callbacks_spec. reflexivity.
Qed.

(** C6: on a match at an index [index] of [model_paths], [_trigger_callbacks]
    calls every registered callback once, in the order of registration, with
    [model_paths[index]] and a label that contains the index in decimal;
    besides these calls it only logs errors.  ([on_detected] appends, so the
    order of the list is the order of registration.)  One round of its loop
    calls the callback and, if the callback raises, logs the exception and
    goes on.  [_trigger_callbacks] itself returns normally whatever the
    callbacks do, so what follows it in the detection loop is run. *)
Theorem every_callback_invoked_once_in_order :
  forall (E : Env) (index : Z) (w : World),
    (0 <= index < Z.of_nat (length (model_paths (self w))))%Z ->
    let path := nth (Z.to_nat index) (model_paths (self w)) "" in
    let w' := fst (_trigger_callbacks E index w) in
    snd (_trigger_callbacks E index w) = Ok tt /\
    self w' = self w /\
    threads w' = threads w /\
    (exists tr,
        trace w' = (trace w ++ tr)%list /\
        filter is_callback tr =
          map (fun cb => EvCallback cb path (label index))
              (on_detected_callbacks (self w)) /\
        forallb (fun ev => is_callback ev || is_error_log ev) tr = true) /\
    contains (py_str_int index) (label index) /\
    (forall cb,
        trigger_one E index cb w =
        (mkWorld (self w) (threads w)
           (trace w ++
            EvCallback cb path (label index) ::
            match callback_run E cb path (label index) (length (trace w)) with
            | Ok _ => []
            | Raise e => [EvLog ERROR ("回调执行失败: " ++ exn_str e)]
            end), Ok tt)) /\
    (forall (B : Type) (k : unit -> M B),
        bind (_trigger_callbacks E index) k w = k tt w') /\
    (forall cb,
        on_detected_callbacks (self (fst (on_detected cb w))) =
          (on_detected_callbacks (self w) ++ [cb])%list).
Proof.
  intros E index w Hi path w'.
  pose proof (py_index_in_range (model_paths (self w)) index "" Hi) as Hpath.
  fold path in Hpath.
  subst w'. rewrite trigger_callbacks_spec. cbn [fst snd self threads trace].
  repeat split.
  - eexists. split; [reflexivity |].
    apply callback_trace_in_range. exact Hpath.
  - apply label_contains_index.
  - intros cb. rewrite trigger_one_spec. cbn [callback_trace]. rewrite Hpath.
    rewrite app_nil_r. reflexivity.
  - intros B k. rewrite bind_trigger_callbacks, trigger_callbacks_spec. reflexivity.
Qed.

Lemma every_callback_invoked_once_in_order_witness :
  exists tr,
    trace (fst (_trigger_callbacks failing_callback_env 0 two_subscribers)) =
      (trace two_subscribers ++ tr)%list /\
    filter is_callback tr =
      [EvCallback 7 "hey.pmdl" (label 0); EvCallback 8 "hey.pmdl" (label 0)] /\
    forallb (fun ev => is_callback ev || is_error_log ev) tr = true.
Proof.
  assert (H : (0 <= 0 < Z.of_nat (length (model_paths (self two_subscribers))))%Z)
    by (vm_compute; split; congruence).
  exact (proj1 (proj2 (proj2 (proj2
           (every_callback_invoked_once_in_order failing_callback_env 0
              two_subscribers H))))).
Defined.

Lemma index_error_text_small (i : Z) :
  (- 2 ^ 31 <= i < 2 ^ 31)%Z -> index_error_text i = "list index out of range".
Proof.
  intros H. unfold index_error_text, fits_index, PY_SSIZE_T_MAX.
  replace ((- (2 ^ 63 - 1) - 1 <=? i)%Z && (i <=? 2 ^ 63 - 1)%Z) with true; [reflexivity |].
  symmetry. apply andb_true_iff. split; apply Z.leb_le; lia.
Qed.

(** C10: for every index, in range or not, [_trigger_callbacks] returns
    normally and leaves the attributes and the threads alone, so what
    follows it in the detection loop is run; when the index is out of range
    the [IndexError] of the lookup is caught inside the [try] of each round:
    no callback is called and one error, with the text of that [IndexError],
    is logged per registered callback.  For an index that fits a C [int], as
    an answer of the engine less one does, the text is
    'list index out of range'. *)
Theorem trigger_callbacks_never_raises :
  forall (E : Env) (index : Z) (w : World),
    let w' := fst (_trigger_callbacks E index w) in
    snd (_trigger_callbacks E index w) = Ok tt /\
    self w' = self w /\
    threads w' = threads w /\
    (forall (B : Type) (k : unit -> M B),
        bind (_trigger_callbacks E index) k w = k tt w') /\
    ((index < - Z.of_nat (length (model_paths (self w))) \/
      Z.of_nat (length (model_paths (self w))) <= index)%Z ->
     (exists msg,
        py_index (model_paths (self w)) index = Raise (IndexError msg) /\
        trace w' =
          (trace w ++
           map (fun _ => EvLog ERROR ("回调执行失败: " ++ msg))
               (on_detected_callbacks (self w)))%list) /\
     ((- 2 ^ 31 <= index < 2 ^ 31)%Z ->
      trace w' =
        (trace w ++
         map (fun _ => EvLog ERROR ("回调执行失败: " ++ "list index out of range"))
             (on_detected_callbacks (self w)))%list)).
Proof.
  intros E index w w'. subst w'.
  rewrite trigger_callbacks_spec. cbn [fst snd self threads trace].
  split; [reflexivity |]. split; [reflexivity |]. split; [reflexivity |]. split.
  - intros B k. rewrite bind_trigger_callbacks, trigger_callbacks_spec. reflexivity.
  - intros Hout.
    pose proof (py_index_out_of_range (model_paths (self w)) index Hout) as Hidx.
    pose proof (fun clock =>
                  callback_trace_out_of_range E _ index _
                    (on_detected_callbacks (self w)) clock Hidx) as Htr.
    cbn [exn_str] in Htr. split.
    + exists (index_error_text index). split; [exact Hidx |].
      f_equal. apply Htr.
    + intros Hsmall. f_equal. rewrite Htr.
      rewrite (index_error_text_small index Hsmall). reflexivity.
Qed.

Lemma trigger_callbacks_never_raises_witness :
  trace (fst (_trigger_callbacks failing_callback_env 5 two_subscribers)) =
    (trace two_subscribers ++
     [EvLog ERROR ("回调执行失败: " ++ "list index out of range");
      EvLog ERROR ("回调执行失败: " ++ "list index out of range")])%list.
Proof.
  assert (Hout : (5 < - Z.of_nat (length (model_paths (self two_subscribers))) \/
                  Z.of_nat (length (model_paths (self two_subscribers))) <= 5)%Z)
    by (right; vm_compute; congruence).
  assert (Hsmall : (- 2 ^ 31 <= 5 < 2 ^ 31)%Z) by lia.
  exact (proj2 (proj2 (proj2 (proj2 (proj2
           (trigger_callbacks_never_raises failing_callback_env 5 two_subscribers))))
           Hout) Hsmall).
Defined.

(** ** The rounds of the worker loop *)

Lemma loop_body_paused (E : Env) (w : World) :
  paused (self w) = true -> loop_body E w = (emit (EvSleep 100) w, Ok tt).
Proof. intros Hp. unfold loop_body, bind, get, call. rewrite Hp. reflexivity. Qed.

Lemma worker_step_paused (E : Env) (j : tid -> World -> World) (t : tid) (w : World) :
  nth_error (threads w) t = Some PcLoop ->
  running (self w) = true ->
  paused (self w) = true ->
  worker_step E j t w = emit (EvSleep 100) w.
Proof.
  intros Hpc Hr Hp. unfold worker_step. rewrite Hpc, Hr, loop_body_paused by exact Hp.
  reflexivity.
Qed.

Lemma count_repeat_other (p : event -> bool) (ev : event) (k : nat) :
  p ev = false -> count p (repeat ev k) = 0.
Proof.
  intros H. unfold count. induction k as [| k IH]; simpl; [| rewrite H]; auto.
Qed.

Lemma count_emit (p : event -> bool) (ev : event) (w : World) :
  p ev = false -> count p (trace (emit ev w)) = count p (trace w).
Proof.
  intros H. unfold emit. cbn [trace]. rewrite count_app. unfold count at 2.
  cbn [filter]. rewrite H. cbn. lia.
Qed.

Lemma loop_body_hear (E : Env) (w : World) :
  loop_body E w =
  (p <- get paused ;; if p then call (EvSleep 100) (fun _ => Ok tt) else hear E) w.
Proof. reflexivity. Qed.

Lemma worker_step_finish_round (E : Env) (j : tid -> World -> World) (t : tid)
    (w : World) :
  nth_error (threads w) t = Some PcLoop ->
  running (self w) = true ->
  paused (self w) = false ->
  worker_step E j t w = finish_round E j t w.
Proof.
  intros Hpc Hr Hp. unfold worker_step, finish_round.
  rewrite Hpc, Hr, loop_body_hear. unfold bind at 1, get at 1. rewrite Hp. reflexivity.
Qed.

(** A round in flight in which nothing lands is the round of [worker_step]. *)
Lemma round_in_flight_alone (E : Env) (j : tid -> World -> World) (t : tid)
    (w w' : World) :
  round_in_flight E j t (fun w0 => w0) w = Some w' -> w' = worker_step E j t w.
Proof.
  unfold round_in_flight. intros H.
  destruct (nth_error (threads w) t) as [[| |] |] eqn:Hpc; try discriminate.
  destruct (running (self w)) eqn:Hr; [| discriminate].
  destruct (paused (self w)) eqn:Hp; [discriminate |].
  cbn [andb negb] in H. inversion H.
  symmetry. apply worker_step_finish_round; assumption.
Qed.

(** C8, as stated, fails: [paused] is read at line 117 only.  On
    [listening], a round of the worker passes the tests of lines 116 and 117,
    then [pause] is called on another thread: the state is Paused, no frame
    has been read so far, and the round still reads one frame and feeds it
    to the engine. *)
Lemma round_in_flight_reads_while_paused :
  state_of (self (fst (pause listening))) = Paused /\
  count is_read (trace (fst (pause listening))) = 0 /\
  count is_run_detection (trace (fst (pause listening))) = 0 /\
  option_map (fun w' => (state_of (self w'),
                         count is_read (trace w'),
                         count is_run_detection (trace w'))) paused_in_flight
    = Some (Paused, 1, 1).
Proof. repeat split; vm_compute; reflexivity. Qed.

(** C8, amended: a round of the worker loop that finds [paused] set at its
    test only sleeps 100 ms: the stream is not read and the engine is not
    run; so over any number of such rounds the attributes and the threads
    stay as they are, the trace grows by sleeps only, and the numbers of
    reads and of inference calls do not change. *)
Theorem paused_rounds_only_sleep :
  forall (E : Env) (n : nat) (t : tid) (k : nat) (w : World),
    nth_error (threads w) t = Some PcLoop ->
    running (self w) = true ->
    paused (self w) = true ->
    let w' := Nat.iter k (worker_step E (join E n) t) w in
    worker_step E (join E n) t w = emit (EvSleep 100) w /\
    self w' = self w /\
    threads w' = threads w /\
    trace w' = (trace w ++ repeat (EvSleep 100) k)%list /\
    count is_read (trace w') = count is_read (trace w) /\
    count is_run_detection (trace w') = count is_run_detection (trace w).
Proof.
  intros E n t k w Hpc Hr Hp w'.
  split; [apply worker_step_paused; assumption |].
  assert (H : self w' = self w /\ threads w' = threads w /\
              trace w' = (trace w ++ repeat (EvSleep 100) k)%list).
  { subst w'. induction k as [| k IH].
    - simpl. rewrite app_nil_r. auto.
    - rewrite Nat.iter_succ. destruct IH as (Hs & Ht & Htr).
      rewrite worker_step_paused; [| rewrite Ht; exact Hpc | rewrite Hs; exact Hr
                                   | rewrite Hs; exact Hp].
      unfold emit. cbn [self threads trace]. repeat split; try assumption.
      rewrite Htr, <- app_assoc. f_equal.
      change (EvSleep 100 :: repeat (EvSleep 100) k) with (repeat (EvSleep 100) (S k)).
      symmetry. apply repeat_cons. }
  destruct H as (Hs & Ht & Htr).
  split; [exact Hs |]. split; [exact Ht |]. split; [exact Htr |].
  split.
  - rewrite Htr, count_app, count_repeat_other; [lia | reflexivity].
  - rewrite Htr, count_app, count_repeat_other; [lia | reflexivity].
Qed.

Lemma paused_rounds_only_sleep_witness :
  count is_read
    (trace (Nat.iter 3 (worker_step quiet_env (join quiet_env 1) 0) listening_paused))
  = count is_read (trace listening_paused).
Proof.
  exact (proj1 (proj2 (proj2 (proj2 (proj2
           (paused_rounds_only_sleep quiet_env 1 0 3 listening_paused
              eq_refl eq_refl eq_refl)))))).
Defined.

Lemma hear_heard (E : Env) (w : World) (s : Stream) (d : Engine)
    (data : frame) (ans : Z) :
  stream (self w) = Some s ->
  detector (self w) = Some d ->
  stream_read E s (buffer_size (self w)) (length (trace w)) = Ok data ->
  RunDetection E d data (S (length (trace w))) = Ok ans ->
  hear E w =
  let heard := mkWorld (self w) (threads w)
                 (trace w ++ [EvRead s (buffer_size (self w)); EvRunDetection d data]) in
  if (ans >? 0)%Z
  then
    let w4 := fst (_trigger_callbacks E (ans - 1)
                     (emit (EvLog INFO ("检测到唤醒词，索引: " ++ py_str_int (ans - 1)))
                        heard)) in
    (emit (EvReset d) w4, Reset E d (length (trace w4)))
  else (heard, Ok tt).
Proof.
  intros Hs Hd Hr Hx. unfold hear.
  unfold bind at 1, get at 1. rewrite Hs.
  unfold bind at 1, get at 1. unfold bind at 1, call at 1. rewrite Hr.
  unfold bind at 1, get at 1. cbn [self emit trace threads]. rewrite Hd.
  unfold bind at 1, call at 1. cbn [self emit trace threads].
  rewrite length_app, Nat.add_1_r. cbn [length]. rewrite Hx.
  replace (emit (EvRunDetection d data) (emit (EvRead s (buffer_size (self w))) w))
    with (mkWorld (self w) (threads w)
            (trace w ++ [EvRead s (buffer_size (self w)); EvRunDetection d data]))
    by (unfold emit; cbn [self threads trace]; rewrite <- app_assoc; reflexivity).
  destruct (ans >? 0)%Z; [| reflexivity].
  cbv zeta. unfold bind at 1, log at 1.
  rewrite bind_trigger_callbacks. rewrite trigger_callbacks_spec.
  cbn [fst]. unfold bind, get, call. cbn [self emit trace threads]. rewrite Hd.
  reflexivity.
Qed.

Lemma loop_body_heard (E : Env) (w : World) (s : Stream) (d : Engine)
    (data : frame) (ans : Z) :
  paused (self w) = false ->
  stream (self w) = Some s ->
  detector (self w) = Some d ->
  stream_read E s (buffer_size (self w)) (length (trace w)) = Ok data ->
  RunDetection E d data (S (length (trace w))) = Ok ans ->
  loop_body E w =
  let heard := mkWorld (self w) (threads w)
                 (trace w ++ [EvRead s (buffer_size (self w)); EvRunDetection d data]) in
  if (ans >? 0)%Z
  then
    let w4 := fst (_trigger_callbacks E (ans - 1)
                     (emit (EvLog INFO ("检测到唤醒词，索引: " ++ py_str_int (ans - 1)))
                        heard)) in
    (emit (EvReset d) w4, Reset E d (length (trace w4)))
  else (heard, Ok tt).
Proof.
  intros Hp Hs Hd Hr Hx. rewrite loop_body_hear.
  unfold bind at 1, get at 1. rewrite Hp.
  apply hear_heard; assumption.
Qed.

(** C9: in a round where the read and the inference succeed, an answer that
    is zero or negative ends the round after the inference: no callback is
    called, the engine is not reset and the worker is back at the test of the
    loop.  A positive answer [ans] is a match: the callbacks are triggered
    with index [ans - 1], then the engine is reset. *)
Theorem only_positive_detection_is_a_match :
  forall (E : Env) (n : nat) (t : tid) (w : World) (s : Stream) (d : Engine)
         (data : frame) (ans : Z),
    nth_error (threads w) t = Some PcLoop ->
    running (self w) = true ->
    paused (self w) = false ->
    stream (self w) = Some s ->
    detector (self w) = Some d ->
    stream_read E s (buffer_size (self w)) (length (trace w)) = Ok data ->
    RunDetection E d data (S (length (trace w))) = Ok ans ->
    let w' := worker_step E (join E n) t w in
    let heard := mkWorld (self w) (threads w)
                   (trace w ++ [EvRead s (buffer_size (self w)); EvRunDetection d data]) in
    ((ans <= 0)%Z ->
       w' = heard /\
       count is_callback (trace w') = count is_callback (trace w) /\
       count is_reset (trace w') = count is_reset (trace w) /\
       nth_error (threads w') t = Some PcLoop) /\
    ((ans > 0)%Z ->
       let w4 := fst (_trigger_callbacks E (ans - 1)
                        (emit (EvLog INFO ("检测到唤醒词，索引: " ++ py_str_int (ans - 1)))
                           heard)) in
       w' = match Reset E d (length (trace w4)) with
            | Ok _ => emit (EvReset d) w4
            | Raise e => leave E (join E n) t (Some e) (emit (EvReset d) w4)
            end).
Proof.
  intros E n t w s d data ans Hpc Hr Hp Hs Hd Hread Hdet w' heard.
  subst w'. unfold worker_step. rewrite Hpc, Hr.
  rewrite (loop_body_heard E w s d data ans Hp Hs Hd Hread Hdet). cbv zeta.
  fold heard. split; intros Hans.
  - assert (Hb : (ans >? 0)%Z = false) by (rewrite Z.gtb_ltb; apply Z.ltb_ge; lia).
    rewrite Hb. subst heard. cbn [trace threads].
    repeat split.
    + rewrite count_app. cbn. lia.
    + rewrite count_app. cbn. lia.
    + exact Hpc.
  - assert (Hb : (ans >? 0)%Z = true) by (rewrite Z.gtb_ltb; apply Z.ltb_lt; lia).
    rewrite Hb. cbv zeta.
    destruct (Reset E d _) as [[] | e]; reflexivity.
Qed.

Lemma only_positive_detection_is_a_match_witness :
  worker_step quiet_env (join quiet_env 1) 0 listening =
    mkWorld (self listening) (threads listening)
      (trace listening ++ [EvRead 3 960; EvRunDetection 1 []]) /\
  worker_step failing_callback_env (join failing_callback_env 1) 0 two_subscribers =
    emit (EvReset 1)
      (fst (_trigger_callbacks failing_callback_env (1 - 1)
              (emit (EvLog INFO ("检测到唤醒词，索引: " ++ py_str_int (1 - 1)))
                 (mkWorld (self two_subscribers) (threads two_subscribers)
                    (trace two_subscribers ++ [EvRead 3 960; EvRunDetection 1 []]))))).
Proof.
  split.
  - apply (proj1 (only_positive_detection_is_a_match quiet_env 1 0 listening 3%nat
                    1%nat [] 0%Z eq_refl eq_refl eq_refl eq_refl eq_refl eq_refl
                    eq_refl)).
    vm_compute. congruence.
  - apply (proj2 (only_positive_detection_is_a_match failing_callback_env 1 0
                    two_subscribers 3%nat 1%nat [] 1%Z eq_refl eq_refl eq_refl
                    eq_refl eq_refl eq_refl eq_refl)).
    reflexivity.
Defined.


Lemma nth_error_set_nth_ne {A : Type} (l : list A) (n m : nat) (x : A) :
  n <> m -> nth_error (set_nth n x l) m = nth_error l m.
Proof.
  revert n m. induction l as [| a l IH]; intros [| n] [| m] H; simpl; auto.
  congruence.
Qed.

Lemma is_alive_set_pc_ne (t t' : tid) (pc : wpc) (w : World) :
  t <> t' -> is_alive t' (set_pc t pc w) = is_alive t' w.
Proof.
  intros H. unfold is_alive, set_pc. cbn [threads].
  rewrite nth_error_set_nth_ne by exact H. reflexivity.
Qed.



(** ** The moves of the worker that is [detection_thread] *)


Lemma setup_frame (E : Env) (w : World) :
  threads (fst (setup E w)) = threads w /\
  running (self (fst (setup E w))) = running (self w) /\
  detection_thread (self (fst (setup E w))) = detection_thread (self w).
Proof.
  apply (keeps_setup (fun w' => threads w' = threads w /\
                                running (self w') = running (self w) /\
                                detection_thread (self w') = detection_thread (self w))
                     (fun _ => true));
    intros; simpl; auto.
Qed.

Lemma loop_body_frame (E : Env) (w : World) :
  threads (fst (loop_body E w)) = threads w /\
  running (self (fst (loop_body E w))) = running (self w) /\
  detection_thread (self (fst (loop_body E w))) = detection_thread (self w).
Proof.
  apply (keeps_loop_body (fun w' => threads w' = threads w /\
                                    running (self w') = running (self w) /\
                                    detection_thread (self w') = detection_thread (self w))
                         (fun _ => true));
    intros; simpl; auto.
Qed.





(** ** One worker at a time *)











(** * Further properties *)

(** ** The constructor with one sensitivity for all models *)

(** X1: with a single number as sensitivity the constructor succeeds exactly
    when [str] prints the number (it refuses an int of more than 4300
    digits, whatever the model paths).  It then keeps one sensitivity per
    model path, each the [str] of that number, and the controller it returns
    is not running, has no thread, no handle and no callback. *)
Theorem init_scalar_one_sensitivity_per_model :
  forall (E : Env) (paths : option (list string)) (x : PyNum) (rate frames : Z),
    (printable x = true ->
     exists d,
       __init__ E paths (Scalar x) rate frames = Ok d /\
       length (sensitivity d) = length (model_paths d) /\
       Forall (fun s => s = py_text x) (sensitivity d) /\
       state_of d = Stopped /\
       is_running d = false /\
       on_detected_callbacks d = [] /\
       detection_thread d = None /\
       audio d = None /\ stream d = None /\ detector d = None) /\
    (printable x = false ->
     exists e, __init__ E paths (Scalar x) rate frames = Raise e).
Proof.
  intros E paths x rate frames. unfold __init__, py_str. split; intros Hx; rewrite Hx.
  - eexists. split; [reflexivity |].
    cbn [sensitivity model_paths]. unfold py_repeat. split; [apply repeat_length |].
    split; [| repeat split].
    apply Forall_forall. intros s Hs. apply repeat_spec in Hs. exact Hs.
  - eexists. reflexivity.
Qed.

Lemma init_scalar_one_sensitivity_per_model_witness :
  (exists d,
     __init__ quiet_env (Some ["a.pmdl"; "b.pmdl"]) (Scalar (PyInt 1)) 16000 960 = Ok d /\
     length (sensitivity d) = length (model_paths d) /\
     Forall (fun s => s = py_text (PyInt 1)) (sensitivity d) /\
     state_of d = Stopped /\
     is_running d = false /\
     on_detected_callbacks d = [] /\
     detection_thread d = None /\
     audio d = None /\ stream d = None /\ detector d = None) /\
  (exists e,
     __init__ quiet_env None (Scalar (PyInt (10 ^ 4300))) 16000 960 = Raise e).
Proof.
  split.
  - apply (proj1 (init_scalar_one_sensitivity_per_model quiet_env
                    (Some ["a.pmdl"; "b.pmdl"]) (PyInt 1) 16000 960)).
    reflexivity.
  - apply (proj2 (init_scalar_one_sensitivity_per_model quiet_env None
                    (PyInt (10 ^ 4300)) 16000 960)).
    vm_compute. reflexivity.
Defined.

(** ** The transitions of pause and resume *)

(** X2: [is_running] is true exactly in state Running.  In state Running
    [pause] moves to Paused, where [is_running] is false though the threads
    are what they were, and a [resume] after it is back in Running; in state
    Paused [resume] moves to Running. *)
Theorem pause_resume_transitions :
  forall (w : World),
    (is_running (self w) = true <-> state_of (self w) = Running) /\
    (state_of (self w) = Running ->
       state_of (self (fst (pause w))) = Paused /\
       is_running (self (fst (pause w))) = false /\
       threads (fst (pause w)) = threads w /\
       state_of (self (fst (resume (fst (pause w))))) = Running) /\
    (state_of (self w) = Paused ->
       state_of (self (fst (resume w))) = Running /\
       is_running (self (fst (resume w))) = true /\
       threads (fst (resume w)) = threads w).
Proof.
  intros w. destruct w as [d th tr].
  destruct d as [mp se sr bs cbs r p dt au st de en].
  unfold is_running, state_of, pause, resume. run.
  destruct r, p; simpl; repeat split; intros; try reflexivity; try discriminate.
Qed.

Lemma pause_resume_transitions_witness :
  state_of (self (fst (pause listening))) = Paused /\
  state_of (self (fst (resume listening_paused))) = Running.
Proof.
  split.
  - apply (proj1 (proj2 (pause_resume_transitions listening))). reflexivity.
  - apply (proj2 (proj2 (pause_resume_transitions listening_paused))). reflexivity.
Defined.

(** ** start on a controller that is not running *)

(** X3: on an enabled controller that is not running, whatever its [paused]
    flag, [start] returns [True], sets the state to Running, and creates
    exactly one thread, at the entry of [_detection_loop], which becomes
    [detection_thread]; it does not wait for it: the handles, the
    configuration and the callbacks are as before and only the logger is
    called. *)
Theorem start_from_stopped_spawns_one_worker :
  forall (w : World),
    enabled (self w) = true ->
    running (self w) = false ->
    let w' := fst (start w) in
    snd (start w) = Ok true /\
    state_of (self w') = Running /\
    is_running (self w') = true /\
    threads w' = (threads w ++ [PcEntry])%list /\
    detection_thread (self w') = Some (length (threads w)) /\
    is_alive (length (threads w)) w' = true /\
    live_workers w' = S (live_workers w) /\
    config (self w') = config (self w) /\
    on_detected_callbacks (self w') = on_detected_callbacks (self w) /\
    audio (self w') = audio (self w) /\
    stream (self w') = stream (self w) /\
    detector (self w') = detector (self w) /\
    trace w' = (trace w ++ [EvLog INFO "Snowboy 唤醒词检测已启动"])%list.
Proof.
  intros w He Hr w'. subst w'. rewrite start_spec, He, Hr. cbn [negb fst snd].
  cbn [self threads trace]. repeat split.
  - unfold is_alive. cbn [threads]. rewrite nth_error_app2 by lia.
    rewrite Nat.sub_diag. reflexivity.
  - unfold live_workers. cbn [threads]. rewrite filter_app, length_app. cbn. lia.
Qed.

Lemma start_from_stopped_spawns_one_worker_witness :
  state_of (self (fst (start (fst (stop quiet_env (join quiet_env 2) None listening_paused)))))
  = Running.
Proof.
  apply (start_from_stopped_spawns_one_worker
           (fst (stop quiet_env (join quiet_env 2) None listening_paused))
           eq_refl eq_refl).
Defined.

(** ** What an execution never changes *)

Section Untouched.

Variable X : Type.
Variable f : Detector -> X.
Hypothesis f_running : forall v d, f (set_running v d) = f d.
Hypothesis f_paused : forall v d, f (set_paused v d) = f d.
Hypothesis f_thread : forall v d, f (set_detection_thread v d) = f d.
Hypothesis f_audio : forall v d, f (set_audio v d) = f d.
Hypothesis f_stream : forall v d, f (set_stream v d) = f d.
Hypothesis f_detector : forall v d, f (set_detector v d) = f d.

Lemma join_untouched (E : Env) (n : nat) (t : tid) (w : World) :
  f (self (join E n t w)) = f (self w).
Proof.
  apply (keeps_join (fun w' => f (self w') = f (self w)) (fun _ => true));
    intros; cbn [self emit set_pc]; try reflexivity; try congruence.
Qed.

Lemma exec_untouched (E : Env) (a : action) (w : World) :
  (forall cb, a <> CallOnDetected cb) ->
  f (self (exec E a w)) = f (self w).
Proof.
  intros Ha. destruct a as [| n | | | cb | t n]; cbn [exec].
  - rewrite start_spec.
    destruct (negb (enabled (self w))); [reflexivity |].
    destruct (running (self w)); [reflexivity |].
    cbn [fst self]. rewrite f_thread, f_paused, f_running. reflexivity.
  - apply (keeps_stop (fun w' => f (self w') = f (self w)) (fun _ => true));
      intros; cbn [self emit]; try reflexivity; try congruence.
    rewrite join_untouched. assumption.
  - rewrite pause_spec. destruct (state_of (self w)); cbn [fst self];
      rewrite ?f_paused; reflexivity.
  - rewrite resume_spec. destruct (state_of (self w)); cbn [fst self];
      rewrite ?f_paused; reflexivity.
  - exfalso. apply (Ha cb). reflexivity.
  - apply (keeps_worker_step (fun w' => f (self w') = f (self w)) (fun _ => true));
      intros; cbn [self emit set_pc]; try reflexivity; try congruence.
    rewrite join_untouched. assumption.
Qed.

End Untouched.

Lemma config_execs (E : Env) (acts : list action) : forall (w : World),
  config (self (execs E acts w)) = config (self w).
Proof.
  induction acts as [| a acts IH]; intros w; [reflexivity |].
  cbn [execs fold_left]. fold (execs E acts (exec E a w)). rewrite IH.
  destruct a as [| n | | | cb | t n];
    try (apply exec_untouched; [reflexivity .. | intros cb'; discriminate]).
  reflexivity.
Qed.

Lemma enabled_execs (E : Env) (acts : list action) (w : World) :
  enabled (self (execs E acts w)) = enabled (self w).
Proof.
  pose proof (config_execs E acts w) as H. unfold config in H. inversion H. auto.
Qed.

(** X4: no call of the interface and no move of a worker changes the model
    paths, the sensitivities, the sample rate, the frame size or [enabled]. *)
Theorem configuration_is_fixed :
  forall (E : Env) (acts : list action) (w : World),
    model_paths (self (execs E acts w)) = model_paths (self w) /\
    sensitivity (self (execs E acts w)) = sensitivity (self w) /\
    sample_rate (self (execs E acts w)) = sample_rate (self w) /\
    buffer_size (self (execs E acts w)) = buffer_size (self w) /\
    enabled (self (execs E acts w)) = enabled (self w).
Proof.
  intros E acts w.
  pose proof (config_execs E acts w) as H.
  unfold config in H. inversion H. auto.
Qed.

(** X5: the callbacks are append-only: after any execution the list is the
    one before it followed by the callbacks registered on the way, in the
    order of their registration. *)
Theorem callbacks_are_append_only :
  forall (E : Env) (acts : list action) (w : World),
    on_detected_callbacks (self (execs E acts w)) =
      (on_detected_callbacks (self w) ++ registered acts)%list.
Proof.
  intros E acts. induction acts as [| a acts IH]; intros w.
  - cbn. rewrite app_nil_r. reflexivity.
  - cbn [execs fold_left]. fold (execs E acts (exec E a w)). rewrite IH.
    destruct a as [| n | | | cb | t n];
      try (rewrite exec_untouched by (reflexivity || (intros cb'; discriminate));
           reflexivity).
    cbn [exec on_detected update fst self set_on_detected_callbacks
         on_detected_callbacks registered flat_map].
    rewrite <- app_assoc. reflexivity.
Qed.

(** ** stop with nothing to wait for *)

(** Lines 58-76 when no worker is alive: the join is skipped. *)
Lemma stop_without_worker (E : Env) (j : tid -> World -> World)
    (caller : option tid) (w : World) :
  (forall t, detection_thread (self w) = Some t -> is_alive t w = false) ->
  stop E j caller w =
  (let w3 := fst (release_stream E (stopping w)) in
   let w4 := fst (release_audio E w3) in
   mkWorld (set_audio None (set_stream None (self w4))) (threads w4)
     (trace w4 ++ [EvLog INFO "Snowboy 唤醒词检测已停止"]), Ok tt).
Proof.
  intros Hdead. rewrite stop_unfold.
  assert (Hw : wait_for_worker j caller (stopping w) = (stopping w, Ok tt)).
  { unfold wait_for_worker, bind, get, ret. cbn [stopping self detection_thread set_running].
    destruct (detection_thread (self w)) as [t |] eqn:Ht; [| reflexivity].
    replace (is_alive t (stopping w)) with (is_alive t w) by reflexivity.
    rewrite (Hdead t eq_refl). reflexivity. }
  rewrite Hw. reflexivity.
Qed.

Lemma release_stream_nothing (E : Env) (w : World) :
  stream (self w) = None -> release_stream E w = (w, Ok tt).
Proof.
  intros H. unfold release_stream, bind, get. rewrite H. reflexivity.
Qed.

Lemma release_audio_nothing (E : Env) (w : World) :
  audio (self w) = None -> release_audio E w = (w, Ok tt).
Proof.
  intros H. unfold release_audio, bind, get. rewrite H. reflexivity.
Qed.

Lemma forallb_app_one (p : event -> bool) (l : list event) (ev : event) :
  forallb p l = true -> p ev = true -> forallb p (l ++ [ev]) = true.
Proof. intros Hl Hev. rewrite forallb_app, Hl. cbn. rewrite Hev. reflexivity. Qed.

Lemma untouched_exec (E : Env) (a : action) (w : World) :
  untouched w -> untouched (exec E a w).
Proof.
  intros (He & Hr & Ht & Ha & Hs & Hd & Hl).
  destruct a as [| n | | | cb | t n]; cbn [exec].
  - rewrite start_spec, He. cbn [negb fst]. unfold untouched, emit.
    cbn [self threads trace]. repeat split; try assumption.
    apply forallb_app_one; [exact Hl | reflexivity].
  - rewrite stop_without_worker.
    + rewrite release_stream_nothing by exact Hs. cbn [fst].
      rewrite release_audio_nothing by exact Ha. cbn [fst].
      unfold untouched, stopping. cbn [self threads trace].
      repeat split; try assumption.
      apply forallb_app_one; [exact Hl | reflexivity].
    + intros t' _. unfold is_alive. rewrite Ht. destruct t'; reflexivity.
  - rewrite pause_spec. unfold state_of. rewrite Hr. cbn [fst].
    unfold untouched. auto 10.
  - rewrite resume_spec. unfold state_of. rewrite Hr. cbn [fst].
    unfold untouched. auto 10.
  - unfold untouched. cbn. auto 10.
  - unfold worker_step. rewrite Ht. destruct t; cbn; unfold untouched; auto 10.
Qed.

(** X6: on a controller constructed with [enabled] false, whatever is
    called and in whatever order, no thread is ever created, the state stays
    Stopped, the handles stay [None] and nothing but the logger is called. *)
Theorem disabled_controller_touches_nothing :
  forall (E : Env) (paths : option (list string)) (sens : SensArg)
         (rate frames : Z) (d : Detector) (acts : list action),
    __init__ E paths sens rate frames = Ok d ->
    enabled d = false ->
    let w := execs E acts (new_world d) in
    threads w = [] /\
    state_of (self w) = Stopped /\
    audio (self w) = None /\
    stream (self w) = None /\
    detector (self w) = None /\
    forallb is_log (trace w) = true.
Proof.
  intros E paths sens rate frames d acts Hinit Hoff w.
  assert (H0 : untouched (new_world d)).
  { unfold __init__ in Hinit. cbv zeta in Hinit.
    destruct sens as [x | l |];
      repeat match type of Hinit with
             | context [match ?r with Ok _ => _ | Raise _ => _ end] => destruct r
             end;
      inversion Hinit; subst; unfold untouched; cbn in *; auto 10. }
  assert (H : untouched w).
  { subst w. generalize dependent (new_world d). clear Hinit Hoff.
    induction acts as [| a acts IH]; intros w0 H0; [exact H0 |].
    cbn [execs fold_left]. apply IH. apply untouched_exec. exact H0. }
  destruct H as (He & Hr & Ht & Ha & Hs & Hd & Hl).
  unfold state_of. rewrite Hr. auto 10.
Qed.

Lemma disabled_controller_touches_nothing_witness :
  let w := execs no_snowboy_env [CallStart; CallPause; Work 0 1; CallStop 3; CallStart]
             (new_world (mkDetector ["hey.pmdl"] ["0.5"] 16000 960 [] false false
                           None None None None false)) in
  threads w = [] /\
  state_of (self w) = Stopped /\
  audio (self w) = None /\
  stream (self w) = None /\
  detector (self w) = None /\
  forallb is_log (trace w) = true.
Proof.
  apply (disabled_controller_touches_nothing no_snowboy_env (Some ["hey.pmdl"])
           (Scalar (PyFloat "0.5")) 16000 960); reflexivity.
Defined.

(** ** The test of the running flag *)

(** X7: [running] is read at the test of line 116 only.  A round of the
    controller's worker that finds it false there reads no frame, runs no
    inference, calls no callback and resets nothing: the worker leaves the
    loop and ends at the join of its own [stop].  A round that the tests let
    through before line 59 of a [stop] on another thread clears [running]
    still reads its frame and feeds it to the engine. *)
Theorem running_is_tested_once_a_round :
  forall (E : Env) (n : nat) (t : tid) (w : World),
    nth_error (threads w) t = Some PcLoop ->
    detection_thread (self w) = Some t ->
    (running (self w) = false ->
     let w' := worker_step E (join E n) t w in
     trace w' =
       (trace w ++ [EvUncaught t (RuntimeError "cannot join current thread")])%list /\
     count is_read (trace w') = count is_read (trace w) /\
     count is_run_detection (trace w') = count is_run_detection (trace w) /\
     count is_callback (trace w') = count is_callback (trace w) /\
     count is_reset (trace w') = count is_reset (trace w) /\
     is_alive t w' = false /\
     running (self w') = false) /\
    (forall (s : Stream) (d : Engine) (data : frame) (ans : Z),
        running (self w) = true ->
        paused (self w) = false ->
        stream (self w) = Some s ->
        detector (self w) = Some d ->
        stream_read E s (buffer_size (self w)) (length (trace w)) = Ok data ->
        RunDetection E d data (S (length (trace w))) = Ok ans ->
        (ans <= 0)%Z ->
        round_in_flight E (join E n) t stopping w =
          Some (mkWorld (set_running false (self w)) (threads w)
                  (trace w ++ [EvRead s (buffer_size (self w));
                               EvRunDetection d data]))).
Proof.
  intros E n t w Hpc Ht. split.
  - intros Hr w'. subst w'. unfold worker_step. rewrite Hpc, Hr.
    rewrite leave_on_own_thread;
      [| exact Ht | unfold is_alive; rewrite Hpc; reflexivity].
    split; [reflexivity |].
    split; [| split; [| split; [| split; [| split]]]].
    + unfold set_pc, emit, stopping. cbn [self threads trace].
      rewrite count_app. cbn. lia.
    + unfold set_pc, emit, stopping. cbn [self threads trace].
      rewrite count_app. cbn. lia.
    + unfold set_pc, emit, stopping. cbn [self threads trace].
      rewrite count_app. cbn. lia.
    + unfold set_pc, emit, stopping. cbn [self threads trace].
      rewrite count_app. cbn. lia.
    + apply is_alive_set_pc_done with (pc := PcLoop). exact Hpc.
    + reflexivity.
  - intros s d data ans Hr Hp Hs Hd Hread Hrun Hans.
    unfold round_in_flight. rewrite Hpc, Hr, Hp. cbn [andb negb].
    unfold finish_round.
    rewrite (hear_heard E (stopping w) s d data ans); try assumption.
    replace (ans >? 0)%Z with false
      by (symmetry; rewrite Z.gtb_ltb; apply Z.ltb_ge; lia).
    reflexivity.
Qed.

Lemma running_is_tested_once_a_round_witness :
  count is_read
    (trace (worker_step quiet_env (join quiet_env 1) 0
              (exec quiet_env (CallStop 0) listening)))
  = count is_read (trace (exec quiet_env (CallStop 0) listening)) /\
  round_in_flight quiet_env (join quiet_env 1) 0 stopping listening =
    Some (mkWorld (set_running false (self listening)) (threads listening)
            (trace listening ++ [EvRead 3 (buffer_size (self listening));
                                 EvRunDetection 1 []])).
Proof.
  split.
  - exact (proj1 (proj2 (proj1 (running_is_tested_once_a_round quiet_env 1 0
                                  (exec quiet_env (CallStop 0) listening)
                                  eq_refl eq_refl) eq_refl))).
  - assert (Hans : (0 <= 0)%Z) by lia.
    exact (proj2 (running_is_tested_once_a_round quiet_env 1 0 listening
                    eq_refl eq_refl)
             3 1 [] 0%Z eq_refl eq_refl eq_refl eq_refl eq_refl eq_refl Hans).
Defined.

(** ** After a stop that waits long enough *)







(** ** The worker releases nothing *)

Lemma released_so_far_emit (c x : nat) (ev : event) (w : World) :
  negb (releases ev) = true -> released_so_far c x w -> released_so_far c x (emit ev w).
Proof.
  intros Hev [Hc Hx]. unfold releases in Hev.
  apply negb_true_iff, orb_false_iff in Hev. destruct Hev as [Hev1 Hev2].
  split; rewrite count_emit by assumption; assumption.
Qed.

(** X9: the worker that is [detection_thread] never closes the stream nor
    terminates the audio device, in any of its moves; when a move ends the
    thread, [running] is false and the thread has died of the
    [RuntimeError] raised by its own [stop]. *)
Theorem worker_never_releases :
  forall (E : Env) (n : nat) (t : tid) (w : World),
    detection_thread (self w) = Some t ->
    is_alive t w = true ->
    let w' := worker_step E (join E n) t w in
    count is_close (trace w') = count is_close (trace w) /\
    count is_terminate (trace w') = count is_terminate (trace w) /\
    (is_alive t w' = false -> snowboydecoder E = true ->
       running (self w') = false /\
       In (EvUncaught t (RuntimeError "cannot join current thread")) (trace w')).
Proof.
  intros E n t w Ht Ha w'.
  set (P := released_so_far (count is_close (trace w)) (count is_terminate (trace w))).
  assert (HP : P w) by (split; reflexivity).
  assert (Hleave : forall raised w1,
             P w1 -> threads w1 = threads w ->
             detection_thread (self w1) = Some t ->
             P (leave E (join E n) t raised w1) /\
             running (self (leave E (join E n) t raised w1)) = false /\
             In (EvUncaught t (RuntimeError "cannot join current thread"))
                (trace (leave E (join E n) t raised w1))).
  { intros raised w1 HP1 Hth Hdt.
    assert (Ha1 : is_alive t w1 = true) by (unfold is_alive in *; rewrite Hth; exact Ha).
    rewrite leave_on_own_thread by assumption.
    split; [| split].
    - unfold set_pc. unfold P, released_so_far. cbn [trace].
      apply (released_so_far_emit _ _ _ (stopping _)); [reflexivity |].
      destruct raised; [apply released_so_far_emit; [reflexivity | exact HP1] | exact HP1].
    - reflexivity.
    - unfold set_pc, emit. cbn [trace]. apply in_or_app. right. left. reflexivity. }
  assert (Hgoal : forall w0, P w0 ->
            (is_alive t w0 = false -> snowboydecoder E = true ->
               running (self w0) = false /\
               In (EvUncaught t (RuntimeError "cannot join current thread")) (trace w0)) ->
            count is_close (trace w0) = count is_close (trace w) /\
            count is_terminate (trace w0) = count is_terminate (trace w) /\
            (is_alive t w0 = false -> snowboydecoder E = true ->
               running (self w0) = false /\
               In (EvUncaught t (RuntimeError "cannot join current thread")) (trace w0))).
  { intros w0 [H1 H2] H3. auto. }
  subst w'. unfold worker_step. unfold is_alive in Ha.
  destruct (nth_error (threads w) t) as [[| |] |] eqn:Hpc; try discriminate.
  - destruct (snowboydecoder E) eqn:Hsnow; cbn [negb].
    + destruct (setup_frame E w) as (F1 & _ & F3).
      assert (HPs : P (fst (setup E w))).
      { apply (keeps_setup P (fun ev => negb (releases ev)));
          try (intros; reflexivity); try assumption.
        - apply released_so_far_emit.
        - intros v w0 H0. exact H0.
        - intros v w0 H0. exact H0.
        - intros v w0 H0. exact H0. }
      destruct (setup E w) as [w1 [u | e]]; cbn [fst] in *.
      * apply Hgoal; [exact HPs |]. intros Hdead.
        unfold is_alive, set_pc in Hdead. cbn [threads] in Hdead. rewrite F1 in Hdead.
        rewrite (nth_error_set_nth _ _ _ _ Hpc) in Hdead. discriminate.
      * destruct (Hleave (Some e) w1 HPs F1) as (L1 & L2 & L3); [congruence |].
        apply Hgoal; auto.
    + apply Hgoal; [apply released_so_far_emit; [reflexivity | exact HP] |].
      intros _ Hs. discriminate.
  - destruct (running (self w)) eqn:Hr.
    + destruct (loop_body_frame E w) as (F1 & _ & F3).
      assert (HPl : P (fst (loop_body E w))).
      { apply (keeps_loop_body P (fun ev => negb (releases ev)));
          try (intros; reflexivity); try assumption.
        apply released_so_far_emit. }
      destruct (loop_body E w) as [w1 [u | e]]; cbn [fst] in *.
      * apply Hgoal; [exact HPl |]. intros Hdead.
        unfold is_alive in Hdead. rewrite F1, Hpc in Hdead. discriminate.
      * destruct (Hleave (Some e) w1 HPl F1) as (L1 & L2 & L3); [congruence |].
        apply Hgoal; auto.
    + destruct (Hleave None w HP eq_refl Ht) as (L1 & L2 & L3).
      apply Hgoal; auto.
Qed.

Lemma worker_never_releases_witness :
  count is_close
    (trace (worker_step no_engine_env (join no_engine_env 1) 0
              (exec no_engine_env CallStart (new_world one_model))))
  = count is_close (trace (exec no_engine_env CallStart (new_world one_model))).
Proof.
  apply (proj1 (worker_never_releases no_engine_env 1 0
                  (exec no_engine_env CallStart (new_world one_model))
                  eq_refl eq_refl)).
Defined.

(** ** stop releases the audio device whatever the stream does *)

Lemma release_stream_trace (E : Env) (w : World) :
  exists tr,
    release_stream E w = (mkWorld (self w) (threads w) (trace w ++ tr), Ok tt) /\
    count is_terminate tr = 0 /\
    count is_close tr <= 1 /\
    (forall s e, stream (self w) = Some s ->
                 is_active E s (length (trace w)) = Raise e ->
                 tr = [EvIsActive s; EvLog ERROR ("关闭音频流失败: " ++ exn_str e)]) /\
    (forall s, stream (self w) = Some s ->
               is_active E s (length (trace w)) = Ok false ->
               close E s (S (length (trace w))) = Ok tt ->
               tr = [EvIsActive s; EvClose s]).
Proof.
  unfold release_stream. unfold bind at 1, get.
  destruct (stream (self w)) as [s |].
  - unfold try_except, bind, call, ret, log, emit. cbn [self threads trace].
    destruct (is_active E s (length (trace w))) as [[|] | e] eqn:Hact;
      cbn [self threads trace].
    + destruct (stop_stream E s _) as [[] | e]; cbn [self threads trace];
        [destruct (close E s _) as [[] | e]; cbn [self threads trace] |];
        rewrite <- ?app_assoc; eexists; (split; [reflexivity |]);
        (split; [cbn; lia |]); (split; [cbn; lia |]);
        split; intros; congruence.
    + rewrite length_app, Nat.add_1_r. cbn [length].
      destruct (close E s (S (length (trace w)))) as [[] | e] eqn:Hclose;
        cbn [self threads trace];
        rewrite <- ?app_assoc; eexists; (split; [reflexivity |]);
        (split; [cbn; lia |]); (split; [cbn; lia |]);
        (split; [intros; congruence |]).
      * intros s' Hs' _ _. inversion Hs'. reflexivity.
      * intros s' Hs' _ Hc. inversion Hs'; subst s'. congruence.
    + eexists. rewrite <- ?app_assoc. split; [reflexivity |].
      split; [cbn; lia |]. split; [cbn; lia |]. split.
      * intros s' e' Hs' Hact'. inversion Hs'; subst s'.
        replace e' with e by congruence. reflexivity.
      * intros; congruence.
  - exists []. unfold ret. rewrite app_nil_r.
    split; [destruct w; reflexivity |].
    split; [cbn; lia |]. split; [cbn; lia |]. split; intros; discriminate.
Qed.

Lemma release_audio_trace (E : Env) (w : World) (a : AudioDev) :
  audio (self w) = Some a ->
  exists tr,
    release_audio E w = (mkWorld (self w) (threads w) (trace w ++ EvTerminate a :: tr), Ok tt) /\
    forallb is_log tr = true.
Proof.
  intros Ha. unfold release_audio. unfold bind at 1, get. rewrite Ha.
  unfold try_except, call, log, emit. cbn [self threads trace].
  destruct (terminate E a (length (trace w))) as [[] | e]; cbn [self threads trace].
  - exists []. split; reflexivity.
  - eexists. rewrite <- app_assoc. split; reflexivity.
Qed.

Lemma count_logs (p : event -> bool) (tr : list event) :
  (forall lvl msg, p (EvLog lvl msg) = false) ->
  forallb is_log tr = true -> count p tr = 0.
Proof.
  intros Hp. unfold count. induction tr as [| ev tr IH]; intros H; [reflexivity |].
  cbn in H. apply andb_true_iff in H. destruct H as [Hev Htr].
  destruct ev; try discriminate. cbn [filter]. rewrite Hp. apply IH, Htr.
Qed.

(** X10: when no worker is alive, [stop] on a controller that holds an
    audio device returns normally, calls [terminate] on the device exactly
    once whatever the calls on the stream answer, closes the stream at most
    once, and clears both handles.  If [is_active] raises, the error is
    logged and the stream is not closed. *)
Theorem stop_terminates_audio_whatever_the_stream_does :
  forall (E : Env) (j : tid -> World -> World) (caller : option tid)
         (w : World) (a : AudioDev),
    (forall t, detection_thread (self w) = Some t -> is_alive t w = false) ->
    audio (self w) = Some a ->
    let w' := fst (stop E j caller w) in
    snd (stop E j caller w) = Ok tt /\
    count is_terminate (trace w') = S (count is_terminate (trace w)) /\
    In (EvTerminate a) (trace w') /\
    count is_close (trace w') <= S (count is_close (trace w)) /\
    audio (self w') = None /\
    stream (self w') = None /\
    (forall s e, stream (self w) = Some s ->
                 is_active E s (length (trace w)) = Raise e ->
                 count is_close (trace w') = count is_close (trace w) /\
                 In (EvLog ERROR ("关闭音频流失败: " ++ exn_str e)) (trace w')).
Proof.
  intros E j caller w a Hdead Ha w'. subst w'.
  rewrite stop_without_worker by exact Hdead. cbv zeta.
  destruct (release_stream_trace E (stopping w)) as (tr & Hrs & Ht & Hc & Hraise & _).
  rewrite Hrs. cbn [fst].
  destruct (release_audio_trace E
              (mkWorld (self (stopping w)) (threads (stopping w))
                 (trace (stopping w) ++ tr)) a Ha) as (tr' & Hra & Hlogs).
  rewrite Hra. cbn [fst snd self threads trace stopping].
  assert (Hlt : count is_terminate tr' = 0)
    by (apply (count_logs is_terminate tr'); [intros; reflexivity | exact Hlogs]).
  assert (Hlc : count is_close tr' = 0)
    by (apply (count_logs is_close tr'); [intros; reflexivity | exact Hlogs]).
  split; [reflexivity |].
  split.
  { rewrite !count_app. change (EvTerminate a :: tr') with ([EvTerminate a] ++ tr')%list.
    rewrite count_app, Ht, Hlt. cbn. lia. }
  split.
  { rewrite !in_app_iff. cbn [In]. tauto. }
  split.
  { rewrite !count_app. change (EvTerminate a :: tr') with ([EvTerminate a] ++ tr')%list.
    rewrite count_app, Hlc. cbn. lia. }
  split; [reflexivity |]. split; [reflexivity |].
  intros s e Hs Hact.
  rewrite (Hraise s e Hs Hact). split.
  - rewrite !count_app. change (EvTerminate a :: tr') with ([EvTerminate a] ++ tr')%list.
    rewrite count_app, Hlc. cbn. lia.
  - rewrite !in_app_iff. cbn [In]. tauto.
Qed.

Lemma stop_terminates_audio_whatever_the_stream_does_witness :
  count is_terminate (trace (fst (stop broken_stream_env (join broken_stream_env 1)
                                    None crashed)))
  = S (count is_terminate (trace crashed)).
Proof.
  assert (Hdead : forall t, detection_thread (self crashed) = Some t ->
                            is_alive t crashed = false).
  { intros t Ht. vm_compute in Ht. inversion Ht. reflexivity. }
  exact (proj1 (proj2 (stop_terminates_audio_whatever_the_stream_does
                         broken_stream_env (join broken_stream_env 1) None crashed 2
                         Hdead eq_refl))).
Defined.

(** ** A failed acquisition *)

Lemma setup_raises (E : Env) (w : World) (e : exn) :
  snd (setup E w) = Raise e ->
  exists tr,
    trace (fst (setup E w)) = (trace w ++ tr)%list /\
    forallb (fun ev => negb (is_log ev || hears ev || releases ev)) tr = true /\
    stream (self (fst (setup E w))) = stream (self w) /\
    (HotwordDetector E (model_paths (self w)) (py_join "," (sensitivity (self w)))
       (length (trace w)) = Raise e ->
     count is_audio_acquisition tr = 0 /\
     audio (self (fst (setup E w))) = audio (self w) /\
     detector (self (fst (setup E w))) = detector (self w)).
Proof.
  unfold setup, bind, get, call, update, emit. cbn [self threads trace].
  destruct (HotwordDetector E _ _ _) as [d | e1] eqn:H1; cbn [self threads trace fst snd].
  - destruct (PyAudio E _) as [a | e2] eqn:H2; cbn [self threads trace fst snd].
    + destruct (audio_open E a _ _ _ _) as [s | e3] eqn:H3;
        cbn [self threads trace fst snd]; intros He; [discriminate |].
      eexists. rewrite <- !app_assoc. split; [reflexivity |].
      split; [reflexivity |]. split; [reflexivity |]. intros; discriminate.
    + intros He. eexists. rewrite <- !app_assoc. split; [reflexivity |].
      split; [reflexivity |]. split; [reflexivity |]. intros; discriminate.
  - intros He. eexists. split; [reflexivity |].
    split; [reflexivity |]. split; [reflexivity |]. intros _. auto.
Qed.

Lemma count_none (p q : event -> bool) (tr : list event) :
  (forall ev, q ev = true -> p ev = false) ->
  forallb q tr = true -> count p tr = 0.
Proof.
  intros Hpq. unfold count. induction tr as [| ev tr IH]; intros H; [reflexivity |].
  cbn in H. apply andb_true_iff in H. destruct H as [Hev Htr].
  cbn [filter]. rewrite (Hpq ev Hev). apply IH, Htr.
Qed.

(** X11: when an acquisition at the head of [_detection_loop] raises, the
    worker logs the exception and ends: [is_running] is false, no stream was
    opened, no frame is read, nothing is closed or terminated.  If it is the
    construction of the engine that raises, PyAudio is not instantiated and
    no stream is opened. *)
Theorem acquisition_failure_is_fatal :
  forall (E : Env) (n : nat) (t : tid) (w : World) (e : exn),
    nth_error (threads w) t = Some PcEntry ->
    detection_thread (self w) = Some t ->
    snowboydecoder E = true ->
    snd (setup E w) = Raise e ->
    let w' := worker_step E (join E n) t w in
    is_alive t w' = false /\
    is_running (self w') = false /\
    stream (self w') = stream (self w) /\
    In (EvLog ERROR ("Snowboy 检测循环异常: " ++ exn_str e)) (trace w') /\
    count is_read (trace w') = count is_read (trace w) /\
    count is_close (trace w') = count is_close (trace w) /\
    count is_terminate (trace w') = count is_terminate (trace w) /\
    (HotwordDetector E (model_paths (self w)) (py_join "," (sensitivity (self w)))
       (length (trace w)) = Raise e ->
     count is_audio_acquisition (trace w') = count is_audio_acquisition (trace w) /\
     audio (self w') = audio (self w) /\
     detector (self w') = detector (self w)).
Proof.
  intros E n t w e Hpc Ht Hsnow Hraise w'.
  destruct (setup_raises E w e Hraise) as (tr & Htr & Hquiet & Hstream & Hengine).
  destruct (setup_frame E w) as (F1 & _ & F3).
  subst w'. unfold worker_step. rewrite Hpc, Hsnow. cbn [negb].
  destruct (setup E w) as [w1 [u | e1]] eqn:Hsetup; cbn [fst snd] in *; [discriminate |].
  inversion Hraise; subst e1.
  rewrite leave_on_own_thread;
    [| congruence | unfold is_alive; rewrite F1, Hpc; reflexivity].
  assert (Hr : count is_read tr = 0).
  { apply (count_none is_read (fun ev => negb (is_log ev || hears ev || releases ev)) tr);
      [| exact Hquiet].
    intros ev Hev. destruct ev; try reflexivity; discriminate. }
  assert (Hc : count is_close tr = 0).
  { apply (count_none is_close (fun ev => negb (is_log ev || hears ev || releases ev)) tr);
      [| exact Hquiet].
    intros ev Hev. destruct ev; try reflexivity; discriminate. }
  assert (Hx : count is_terminate tr = 0).
  { apply (count_none is_terminate (fun ev => negb (is_log ev || hears ev || releases ev)) tr);
      [| exact Hquiet].
    intros ev Hev. destruct ev; try reflexivity; discriminate. }
  split.
  { unfold is_alive, set_pc. cbn [threads emit stopping]. rewrite F1.
    rewrite (nth_error_set_nth _ _ _ _ Hpc). reflexivity. }
  unfold set_pc, emit, stopping. cbn [self threads trace].
  split; [reflexivity |]. split; [exact Hstream |].
  split; [rewrite !in_app_iff; cbn [In]; tauto |].
  rewrite Htr. rewrite !count_app. rewrite Hr, Hc, Hx. cbn.
  split; [lia |]. split; [lia |]. split; [lia |].
  intros Heng. destruct (Hengine Heng) as (A1 & A2 & A3).
  rewrite A1. cbn. split; [lia |]. auto.
Qed.

Lemma acquisition_failure_is_fatal_witness :
  is_alive 0 (worker_step no_engine_env (join no_engine_env 1) 0
                (exec no_engine_env CallStart (new_world one_model))) = false.
Proof.
  apply (acquisition_failure_is_fatal no_engine_env 1 0
           (exec no_engine_env CallStart (new_world one_model))
           (RuntimeError "bad model")); reflexivity.
Defined.

(** ** An index counted from the end *)

Lemma py_index_negative {A : Type} (l : list A) (i : Z) (dflt : A) :
  (- Z.of_nat (length l) <= i < 0)%Z ->
  py_index l i = Ok (nth (Z.to_nat (Z.of_nat (length l) + i)) l dflt).
Proof.
  intros H. unfold py_index.
  replace (i <? 0)%Z with true by (symmetry; apply Z.ltb_lt; lia).
  replace ((0 <=? Z.of_nat (length l) + i)%Z &&
           (Z.of_nat (length l) + i <? Z.of_nat (length l))%Z) with true
    by (symmetry; apply andb_true_iff; split; [apply Z.leb_le | apply Z.ltb_lt]; lia).
  destruct (nth_error l (Z.to_nat (Z.of_nat (length l) + i))) as [a |] eqn:Hn.
  - rewrite (nth_error_nth _ _ dflt Hn). reflexivity.
  - apply nth_error_None in Hn. lia.
Qed.

(** X12: an index between [-len(model_paths)] and [-1] is in range for
    [_trigger_callbacks]: every callback is called once, in order, with the
    model path counted from the end. *)
Theorem negative_index_counts_from_the_end :
  forall (E : Env) (index : Z) (w : World),
    (- Z.of_nat (length (model_paths (self w))) <= index < 0)%Z ->
    let path := nth (Z.to_nat (Z.of_nat (length (model_paths (self w))) + index))
                    (model_paths (self w)) "" in
    exists tr,
      _trigger_callbacks E index w =
        (mkWorld (self w) (threads w) (trace w ++ tr), Ok tt) /\
      filter is_callback tr =
        map (fun cb => EvCallback cb path (label index))
            (on_detected_callbacks (self w)) /\
      forallb (fun ev => is_callback ev || is_error_log ev) tr = true.
Proof.
  intros E index w Hi path.
  rewrite trigger_callbacks_spec. eexists. split; [reflexivity |].
  apply callback_trace_in_range. apply py_index_negative. exact Hi.
Qed.

Lemma negative_index_counts_from_the_end_witness :
  exists tr,
    _trigger_callbacks failing_callback_env (-1) two_subscribers =
      (mkWorld (self two_subscribers) (threads two_subscribers)
         (trace two_subscribers ++ tr), Ok tt) /\
    filter is_callback tr =
      [EvCallback 7 "hey.pmdl" (label (-1)); EvCallback 8 "hey.pmdl" (label (-1))] /\
    forallb (fun ev => is_callback ev || is_error_log ev) tr = true.
Proof.
  apply (negative_index_counts_from_the_end failing_callback_env (-1) two_subscribers).
  vm_compute. split; congruence.
Defined.

(** ** stop on the worker's own thread *)

(** X13: [stop] called on the thread of the live worker in
    [detection_thread] raises [RuntimeError] at the join, after clearing
    [running] and before releasing anything: the handles are kept and no
    collaborator is called. *)
Theorem stop_on_own_thread_raises :
  forall (E : Env) (j : tid -> World -> World) (t : tid) (w : World),
    joins_itself (Some t) w = true ->
    stop E j (Some t) w =
      (stopping w, Raise (RuntimeError "cannot join current thread")) /\
    is_running (self (fst (stop E j (Some t) w))) = false /\
    stream (self (fst (stop E j (Some t) w))) = stream (self w) /\
    audio (self (fst (stop E j (Some t) w))) = audio (self w) /\
    trace (fst (stop E j (Some t) w)) = trace w.
Proof.
  intros E j t w Hj. unfold joins_itself in Hj.
  destruct (detection_thread (self w)) as [t' |] eqn:Ht; [| discriminate].
  apply andb_true_iff in Hj. destruct Hj as [Heq Ha].
  apply Nat.eqb_eq in Heq. subst t'.
  assert (H : stop E j (Some t) w =
              (stopping w, Raise (RuntimeError "cannot join current thread"))).
  { rewrite stop_unfold, wait_for_worker_self; [reflexivity | exact Ht | exact Ha]. }
  rewrite H. repeat split.
Qed.

Lemma stop_on_own_thread_raises_witness :
  stop quiet_env (join quiet_env 1) (Some 0) listening =
    (stopping listening, Raise (RuntimeError "cannot join current thread")).
Proof.
  apply (proj1 (stop_on_own_thread_raises quiet_env (join quiet_env 1) 0 listening
                  eq_refl)).
Defined.

(** ** The acquisitions *)

(** X14: when the three acquisitions succeed, the worker has built the
    engine from the model paths and the comma-joined sensitivities, then
    instantiated PyAudio, then opened the stream with [CHANNELS], the sample
    rate and the frame size of the controller, in this order; the three
    handles are the values returned and the worker is at the loop. *)
Theorem acquisitions_in_order :
  forall (E : Env) (n : nat) (t : tid) (w : World) (d : Engine) (a : AudioDev)
         (s : Stream),
    nth_error (threads w) t = Some PcEntry ->
    snowboydecoder E = true ->
    HotwordDetector E (model_paths (self w)) (py_join "," (sensitivity (self w)))
      (length (trace w)) = Ok d ->
    PyAudio E (S (length (trace w))) = Ok a ->
    audio_open E a (CHANNELS E) (sample_rate (self w)) (buffer_size (self w))
      (S (S (length (trace w)))) = Ok s ->
    let w' := worker_step E (join E n) t w in
    nth_error (threads w') t = Some PcLoop /\
    detector (self w') = Some d /\
    audio (self w') = Some a /\
    stream (self w') = Some s /\
    running (self w') = running (self w) /\
    paused (self w') = paused (self w) /\
    trace w' =
      (trace w ++
       [EvHotwordDetector (model_paths (self w)) (py_join "," (sensitivity (self w)));
        EvPyAudio;
        EvOpen a (CHANNELS E) (sample_rate (self w)) (buffer_size (self w))])%list.
Proof.
  intros E n t w d a s Hpc Hsnow Hd Ha Hs w'. subst w'.
  unfold worker_step. rewrite Hpc, Hsnow. cbn [negb].
  unfold setup, bind, get, call, update, emit. cbn [self threads trace].
  rewrite Hd. cbn [self threads trace set_detector].
  rewrite length_app, Nat.add_1_r. cbn [length]. rewrite Ha.
  cbn [self threads trace set_audio sample_rate buffer_size].
  rewrite !length_app. cbn [length]. rewrite !Nat.add_1_r.
  cbn [sample_rate buffer_size model_paths sensitivity set_detector set_audio].
  rewrite Hs.
  unfold set_pc. cbn [self threads trace].
  rewrite (nth_error_set_nth _ _ _ _ Hpc), <- !app_assoc. repeat split.
Qed.

Lemma acquisitions_in_order_witness :
  trace (worker_step quiet_env (join quiet_env 1) 0
           (exec quiet_env CallStart (new_world one_model))) =
    (trace (exec quiet_env CallStart (new_world one_model)) ++
     [EvHotwordDetector ["hey.pmdl"] "0.5"; EvPyAudio; EvOpen 2 1 16000 960])%list.
Proof.
  exact (proj2 (proj2 (proj2 (proj2 (proj2 (proj2
           (acquisitions_in_order quiet_env 1 0
              (exec quiet_env CallStart (new_world one_model)) 1%nat 2%nat 3%nat
              eq_refl eq_refl eq_refl eq_refl eq_refl))))))).
Defined.

(** ** Workers exist only where the library does *)

Lemma init_enabled (E : Env) (paths : option (list string)) (sens : SensArg)
    (rate frames : Z) (d : Detector) :
  __init__ E paths sens rate frames = Ok d ->
  enabled d = snowboydecoder E && negb (Nat.eqb (length (model_paths d)) 0).
Proof.
  unfold __init__. cbv zeta. intros H.
  destruct sens as [x | l |];
    repeat match type of H with
           | context [match ?r with Ok _ => _ | Raise _ => _ end] => destruct r
           end;
    inversion H; reflexivity.
Qed.

Lemma started_only_if_enabled_exec (E : Env) (a : action) (w : World) :
  started_only_if_enabled w -> started_only_if_enabled (exec E a w).
Proof.
  intros H.
  assert (Hemit : forall ev w0, started_only_if_enabled w0 ->
                                started_only_if_enabled (emit ev w0))
    by (intros ev w0 H0; exact H0).
  assert (Hpc : forall t pc w0, started_only_if_enabled w0 ->
                                started_only_if_enabled (set_pc t pc w0)).
  { intros t pc w0 [H0 | H0]; [left | right; exact H0].
    unfold set_pc. cbn [threads]. rewrite H0. destruct t; reflexivity. }
  assert (Hjoin : forall n t w0, started_only_if_enabled w0 ->
                                 started_only_if_enabled (join E n t w0)).
  { intros n t w0. apply (keeps_join started_only_if_enabled (fun _ => true));
      intros; try reflexivity; auto. }
  destruct a as [| n | | | cb | t n]; cbn [exec].
  - rewrite start_spec. destruct (enabled (self w)) eqn:He; cbn [negb].
    + destruct (running (self w)); [exact H |]. right. cbn. exact He.
    + exact H.
  - apply (keeps_stop started_only_if_enabled (fun _ => true));
      intros; try reflexivity; auto.
  - rewrite pause_spec. destruct (state_of (self w)); exact H.
  - rewrite resume_spec. destruct (state_of (self w)); exact H.
  - exact H.
  - apply (keeps_worker_step started_only_if_enabled (fun _ => true));
      intros; try reflexivity; auto.
Qed.

Lemma started_only_if_enabled_execs (E : Env) (acts : list action) : forall (w : World),
  started_only_if_enabled w -> started_only_if_enabled (execs E acts w).
Proof.
  induction acts as [| a acts IH]; intros w H; [exact H |].
  cbn [execs fold_left]. apply IH. apply started_only_if_enabled_exec. exact H.
Qed.

(** X15: in every execution from the constructor a thread exists only if
    the snowboy library was imported and there is a model path: the check of
    line 102 never fires. *)
Theorem workers_only_with_the_library :
  forall (E : Env) (paths : option (list string)) (sens : SensArg)
         (rate frames : Z) (d : Detector) (acts : list action),
    __init__ E paths sens rate frames = Ok d ->
    threads (execs E acts (new_world d)) <> [] ->
    snowboydecoder E = true /\ model_paths d <> [] /\ enabled d = true.
Proof.
  intros E paths sens rate frames d acts Hinit Hth.
  assert (H : started_only_if_enabled (execs E acts (new_world d))).
  { apply started_only_if_enabled_execs. left. reflexivity. }
  destruct H as [H | H]; [contradiction |].
  rewrite enabled_execs in H. cbn [new_world self] in H.
  rewrite (init_enabled E paths sens rate frames d Hinit) in H.
  apply andb_true_iff in H. destruct H as [Hs Hp].
  apply negb_true_iff, Nat.eqb_neq in Hp.
  repeat split; try assumption.
  - intros Hnil. rewrite Hnil in Hp. apply Hp. reflexivity.
  - rewrite (init_enabled E paths sens rate frames d Hinit), Hs.
    apply negb_true_iff, Nat.eqb_neq. exact Hp.
Qed.

Lemma workers_only_with_the_library_witness :
  snowboydecoder quiet_env = true /\ model_paths one_model <> [] /\
  enabled one_model = true.
Proof.
  apply (workers_only_with_the_library quiet_env (Some ["hey.pmdl"])
           (Scalar (PyFloat "0.5")) 16000 960 one_model [CallStart; Work 0 0]).
  - reflexivity.
  - discriminate.
Defined.

(** ** start after stop *)


